(** * PDFExcel.py: the PDF splitter, as a shallow embedding

    The development follows [src/PDFExcel.py] (class [PDFSplitterApp]):
    - Python [str] values are lists of Unicode code points;
    - the file system is a finite map from paths to byte contents;
    - methods that raise or write are computations in a state-and-exception
      monad over that file system and the progress bar;
    - the third-party libraries the program calls (the Unicode character
      database behind [str.isalnum]/[str.strip]/[str.lower], chardet, the
      codecs, the pandas tokenizer, PyPDF2) are Section variables; what the
      program fixes itself (argument defaults, the order of the encodings,
      the control flow, every message) is written out. *)

From Stdlib Require Import Ascii String.
From Stdlib.Strings Require Import Byte.
From stdpp Require Import base numbers list option strings pretty gmap.

Local Open Scope N_scope.

(** ** Python strings *)

(** A code point; a [str] is a [list N]. *)
Abbreviation char := N (only parsing).
Abbreviation pystr := (list N) (only parsing).

(** An ASCII literal of the source, as a [str]. *)
Definition lit (s : string) : pystr :=
  map N_of_ascii (list_ascii_of_string s).

(** [f"{n}"] for a non-negative [int]. *)
Definition str_of_nat (n : nat) : pystr := lit (pretty n).

(** [s.endswith(suffix)] *)
Definition endswith (s suffix : pystr) : bool :=
  bool_decide (drop (length s - length suffix)%nat s = suffix).

(** [s.endswith((a, b))], with a tuple of suffixes. *)
Definition endswith_any (s : pystr) (suffixes : list pystr) : bool :=
  existsb (endswith s) suffixes.

(** *** Character classes

    [str.isalnum] and the whitespace test of [str.strip] read the Unicode
    character database.  Its ASCII rows are written out; the rows of the other
    code points are the two parameters of the section below. *)

Definition ascii_isalnum (c : char) : bool :=
  ((48 <=? c) && (c <=? 57)) || ((65 <=? c) && (c <=? 90))
  || ((97 <=? c) && (c <=? 122)).

(** TAB, LF, VT, FF, CR, FS, GS, RS, US and SPACE. *)
Definition ascii_isspace (c : char) : bool :=
  ((9 <=? c) && (c <=? 13)) || ((28 <=? c) && (c <=? 32)).

Fixpoint lstrip_with (sp : char -> bool) (s : pystr) : pystr :=
  match s with
  | [] => []
  | c :: s' => if sp c then lstrip_with sp s' else s
  end.

Definition rstrip_with (sp : char -> bool) (s : pystr) : pystr :=
  reverse (lstrip_with sp (reverse s)).

(** The full-width parentheses U+FF08 and U+FF09 of the source's tuple. *)
Definition fullwidth_lparen : char := 65288.
Definition fullwidth_rparen : char := 65289.

(** The tuple [(' ', '_', '-', '(', ')', '（', '）')]. *)
Definition extra_chars : list char :=
  [32; 95; 45; 40; 41; fullwidth_lparen; fullwidth_rparen].


(** ** Exceptions and the texts of the source *)

(** The exception classes the program raises or tells apart; [msg] is what
    [str(e)] returns. *)
Inductive exception :=
  | FileNotFoundError (msg : pystr)
  | ValueError (msg : pystr)
  | UnicodeDecodeError (msg : pystr)
  | IndexError (msg : pystr)
  | OSError (msg : pystr)
  | OtherError (msg : pystr).
    (* any other class below [Exception], raised inside a library call *)

Definition exception_str (e : exception) : pystr :=
  match e with
  | FileNotFoundError m | ValueError m | UnicodeDecodeError m
  | IndexError m | OSError m | OtherError m => m
  end.

#[global] Instance exception_eq_dec : EqDecision exception.
Proof. solve_decision. Defined.

(** "文件不存在" *)
Definition msg_file_missing : pystr := [25991; 20214; 19981; 23384; 22312].

(** f"读取Excel文件失败: {str(e)}" *)
Definition msg_excel_failed (e : exception) : pystr :=
  [35835; 21462; 69; 120; 99; 101; 108; 25991; 20214; 22833; 36133; 58; 32]
  ++ exception_str e.

(** "无法读取文件，请检查文件格式和编码" *)
Definition msg_cannot_read : pystr :=
  [26080; 27861; 35835; 21462; 25991; 20214; 65292; 35831; 26816; 26597;
   25991; 20214; 26684; 24335; 21644; 32534; 30721].

(** "PDF文件不存在" *)
Definition msg_pdf_missing : pystr :=
  [80; 68; 70; 25991; 20214; 19981; 23384; 22312].

(** f"名称数量({len(names)})与PDF页数({total_pages})不匹配\n"
    "请确保名称文件包含与PDF页数相同的名称" *)
Definition msg_count_mismatch (n_names total_pages : nat) : pystr :=
  [21517; 31216; 25968; 37327; 40] ++ str_of_nat n_names
  ++ [41; 19982; 80; 68; 70; 39029; 25968; 40] ++ str_of_nat total_pages
  ++ [41; 19981; 21305; 37197; 10; 35831; 30830; 20445; 21517; 31216; 25991;
      20214; 21253; 21547; 19982; 80; 68; 70; 39029; 25968; 30456; 21516;
      30340; 21517; 31216].

(** "错误" and "完成", the dialog titles. *)
Definition title_error : pystr := [38169; 35823].
Definition title_done : pystr := [23436; 25104].

(** "请填写所有必填字段！" *)
Definition msg_fill_all : pystr :=
  [35831; 22635; 20889; 25152; 26377; 24517; 22635; 23383; 27573; 65281].

(** "请选择有效的PDF文件（.pdf格式）" *)
Definition msg_need_pdf : pystr :=
  [35831; 36873; 25321; 26377; 25928; 30340; 80; 68; 70; 25991; 20214; 65288;
   46; 112; 100; 102; 26684; 24335; 65289].

(** "名称文件为空或格式不正确" *)
Definition msg_names_empty : pystr :=
  [21517; 31216; 25991; 20214; 20026; 31354; 25110; 26684; 24335; 19981;
   27491; 30830].

(** f"处理失败:\n{str(e)}" *)
Definition msg_failed (e : exception) : pystr :=
  [22788; 29702; 22833; 36133; 58; 10] ++ exception_str e.

(** "无" *)
Definition msg_none : pystr := [26080].

(** The text of the completion dialog:
    f"成功拆分 {len(names)} 页PDF到:\n{output_folder}\n\n"
    f"首尾文件名示例:\n"
    f"起始: {names[0] if len(names) > 0 else '无'}\n"
    f"结束: {names[-1] if len(names) > 1 else '无'}" *)
Definition msg_done (names : list pystr) (output_folder : pystr) : pystr :=
  [25104; 21151; 25286; 20998; 32] ++ str_of_nat (length names)
  ++ [32; 39029; 80; 68; 70; 21040; 58; 10] ++ output_folder
  ++ [10; 10; 39318; 23614; 25991; 20214; 21517; 31034; 20363; 58; 10; 36215;
      22987; 58; 32]
  ++ (if (0 <? length names)%nat then default msg_none (head names)
      else msg_none)
  ++ [10; 32467; 26463; 58; 32]
  ++ (if (1 <? length names)%nat then default msg_none (last names)
      else msg_none).

(** What [messagebox] shows. *)
Inductive dialog :=
  | showerror (title message : pystr)
  | showinfo (title message : pystr).

(** ** Tables *)

(** A cell of a [DataFrame]: missing ([NaN]), or a value with the text that
    [str] gives for it. *)
Inductive cell :=
  | NaN
  | Value (text : pystr).

Record DataFrame := {
  columns : list pystr;
  rows : list (list cell)
}.

(** [df.empty]: some axis has length 0. *)
Definition df_empty (df : DataFrame) : bool :=
  bool_decide (columns df = []) || bool_decide (rows df = []).

(** [str(x)] for a cell, which is what [astype(str)] applies. *)
Definition cell_str (c : cell) : pystr :=
  match c with
  | NaN => lit "nan"
  | Value text => text
  end.

(** [df.iloc[:, 0]]: the first cell of each row (a row shorter than the
    header is padded with [NaN]). *)
Definition iloc_first_column (df : DataFrame) : list cell :=
  map (fun r => default NaN (head r)) (rows df).

(** [df.iloc[:, 0].astype(str).tolist()] *)
Definition first_column_names (df : DataFrame) : list pystr :=
  map cell_str (iloc_first_column df).

(** ** Codecs *)

(** The [latin1] codec maps byte [b] to code point [b], and back. *)
Definition latin1_decode (raw : list byte) : pystr := map Byte.to_N raw.

Definition latin1_encode (text : pystr) : option (list byte) :=
  mapM Byte.of_N text.

(** The list built in [read_name_file], after the detected encoding. *)
Definition fixed_encodings : list (option pystr) :=
  [Some (lit "gb18030"); Some (lit "gbk"); Some (lit "utf-8");
   Some (lit "utf-16"); Some (lit "latin1")].

(** ** Paths *)

(** [os.path.join(a, b)] of [posixpath]. *)
Definition os_path_join (a b : pystr) : pystr :=
  if bool_decide (head b = Some 47) then b
  else if bool_decide (a = []) || endswith a [47] then a ++ b
  else a ++ [47] ++ b.

(** ** The world the program runs in *)

(** Calls that leave the process, in program order. *)
Inductive event :=
  | ReadCsv (path : pystr) (encoding : option pystr)
  | ReadExcel (path : pystr)
  | WriteFile (path : pystr) (data : list byte).

Record world := World {
  files : gmap pystr (list byte);
  progress_maximum : nat;
  progress_value : nat;
  trace : list event
}.

(** Computations that read and change the world and may raise. *)
Definition M (A : Type) : Type := world -> (exception + A) * world.

Definition ret {A} (a : A) : M A := fun w => (inr a, w).

Definition raise {A} (e : exception) : M A := fun w => (inl e, w).

Definition bind {A B} (m : M A) (k : A -> M B) : M B :=
  fun w =>
    match m w with
    | (inl e, w') => (inl e, w')
    | (inr a, w') => k a w'
    end.

(** [try: ... except ...:] hands the exception to the handler as a value. *)
Definition attempt {A} (m : M A) : M (exception + A) :=
  fun w => let '(r, w') := m w in (inr r, w').

(** A library call that does no I/O of its own. *)
Definition lift {A} (r : exception + A) : M A := fun w => (r, w).

Definition modify (f : world -> world) : M unit := fun w => (inr tt, f w).

Declare Scope py_scope.
Delimit Scope py_scope with py.
Notation "x <- m ;; k" := (bind m (fun x => k))
  (at level 100, m at next level, right associativity) : py_scope.
Notation "m ;;; k" := (bind m (fun _ => k))
  (at level 100, right associativity) : py_scope.

Definition log (ev : event) : M unit :=
  modify (fun w => World (files w) (progress_maximum w) (progress_value w)
                         (trace w ++ [ev])).

Definition set_progress_maximum (n : nat) : M unit :=
  modify (fun w => World (files w) n (progress_value w) (trace w)).

Definition set_progress_value (n : nat) : M unit :=
  modify (fun w => World (files w) (progress_maximum w) n (trace w)).

(** [os.path.exists(path)] *)
Definition os_path_exists (path : pystr) : M bool :=
  fun w => (inr (bool_decide (is_Some (files w !! path))), w).

(** [open(path, 'rb').read()]; the [OSError] text is the interpreter's. *)
Definition read_file (path : pystr) : M (list byte) :=
  fun w =>
    match files w !! path with
    | Some data => (inr data, w)
    | None => (inl (FileNotFoundError (lit "No such file or directory")), w)
    end.

(** ** File names and directories *)

(** An ASCII decimal digit. *)
Definition is_digit (c : char) : bool := (48 <=? c) && (c <=? 57).

(** Punctuation that POSIX or Windows refuse in a file name: the quote,
    [*], [/], [:], [<], [>], [?], the backslash and [|]. *)
Definition reserved_chars : list char :=
  [34; 42; 47; 58; 60; 62; 63; 92; 124].

(** A character a file name may hold: no control character, none of the
    reserved ones. *)
Definition legal_char (c : char) : bool :=
  negb (c <? 32) && negb (c =? 127)
  && negb (bool_decide (c ∈ reserved_chars)).


(** The text every path directly inside [folder] starts with. *)
Definition folder_prefix (folder : pystr) : pystr :=
  if bool_decide (folder = []) || endswith folder [47] then folder
  else folder ++ [47].

(** [path] names an entry directly inside [folder]. *)
Definition in_folder (folder path : pystr) : bool :=
  let pre := folder_prefix folder in
  let base := drop (length pre) path in
  bool_decide (take (length pre) path = pre)
  && negb (bool_decide (base = []))
  && negb (bool_decide (47 ∈ base)).

(** [os.listdir(folder)], as the set of the paths of its files. *)
Definition listdir (folder : pystr) (fs : gmap pystr (list byte))
  : gset pystr :=
  filter (fun path => Is_true (in_folder folder path)) (dom fs).

(** The writes of a trace, oldest first. *)
Definition writes (tr : list event) : list (pystr * list byte) :=
  omap (fun ev => match ev with
                  | WriteFile path data => Some (path, data)
                  | _ => None
                  end) tr.

(** A file system after a list of writes; a write replaces what the path
    held. *)
Definition apply_writes (fs : gmap pystr (list byte))
    (ws : list (pystr * list byte)) : gmap pystr (list byte) :=
  foldl (fun fs' w => <[w.1 := w.2]> fs') fs ws.

(** A world after some more calls were recorded. *)
Definition logged (w : world) (evs : list event) : world :=
  World (files w) (progress_maximum w) (progress_value w) (trace w ++ evs).

(** The attempt raised [UnicodeDecodeError]. *)
Definition decoding_failed {A} (r : exception + A) : bool :=
  match r with
  | inl (UnicodeDecodeError _) => true
  | _ => false
  end.

(** ** Sample libraries

    Small, executable stand-ins for the library parameters of the program:
    they make the theorems below runnable on concrete jobs. *)

(** CJK Unified Ideographs, U+4E00 to U+9FFF, are letters (category Lo). *)
Definition sample_isalnum (c : char) : bool :=
  (19968 <=? c) && (c <=? 40959).

(** NO-BREAK SPACE and IDEOGRAPHIC SPACE are whitespace (category Zs). *)
Definition sample_isspace (c : char) : bool :=
  (c =? 160) || (c =? 12288).

(** [str.lower] on ASCII letters. *)
Definition sample_lower (s : pystr) : pystr :=
  map (fun c => if (65 <=? c) && (c <=? 90) then c + 32 else c) s.

Definition is_ascii_byte (b : byte) : bool := Byte.to_N b <? 128.

(** A detector that recognises pure ASCII and nothing else. *)
Definition sample_chardet (rawdata : list byte) : option pystr :=
  if forallb is_ascii_byte rawdata then Some (lit "ascii") else None.

(** A codec table restricted to ASCII input: a byte above 127 is a
    decoding error, and a text without byte-order mark is no UTF-16. *)
Definition sample_codec (name : pystr) (raw : list byte)
  : exception + pystr :=
  if bool_decide (name = lit "utf-16")
  then inl (OtherError (lit "UTF-16 stream does not start with BOM"))
  else if forallb is_ascii_byte raw then inr (latin1_decode raw)
  else inl (UnicodeDecodeError (lit "invalid start byte")).

(** [s.split(sep)] *)
Fixpoint split_on (sep : char) (s : pystr) : list pystr :=
  match s with
  | [] => [[]]
  | c :: s' =>
      match split_on sep s' with
      | [] => [[]]
      | field :: fields =>
          if c =? sep then [] :: field :: fields
          else (c :: field) :: fields
      end
  end.

(** A tokenizer for unquoted, comma-separated lines; a record longer than
    the first one is an error. *)
Definition sample_tokenize (text : pystr)
  : pystr + list (list pystr) :=
  let lines :=
    List.filter (fun l => negb (bool_decide (l = []))) (split_on 10 text) in
  let records := map (split_on 44) lines in
  match records with
  | [] => inr []
  | header :: body =>
      if forallb (fun r => (length r <=? length header)%nat) body
      then inr records
      else inl (lit "Error tokenizing data")
  end.

(** Every field is text, the empty field is missing. *)
Definition sample_convert (header : list pystr) (body : list (list pystr))
  : list (list cell) :=
  map (map (fun f => if bool_decide (f = []) then NaN else Value f)) body.

(** No workbook reader at all. *)
Definition sample_excel_sheet (raw : list byte)
  : exception + list (list pystr) :=
  inl (OtherError (lit "File is not a zip file")).

(** A toy document format in which every byte is one page. *)
Definition sample_pdf_pages (raw : list byte) : exception + list byte :=
  inr raw.

Definition sample_pdf_write (pages : list byte) : list byte := pages.

(** Paths of up to 255 characters can be written. *)
Definition sample_open_wb_error (path : pystr) : option pystr :=
  if (255 <? length path)%nat then Some (lit "File name too long")
  else None.

(** A world holding the given files and nothing else. *)
Definition world_of (fs : list (pystr * list byte)) : world :=
  World (list_to_map fs) 0 0 [].

(** A source of three one-byte pages, and nothing else on disk. *)
Definition job_world : world :=
  world_of [(lit "in/src.pdf", [x01; x02; x03])].

Definition invoice_names : list pystr :=
  [lit "Invoice A"; lit "Invoice B"; lit "Invoice B"].

(** Three name files: [n.csv] holds the lines [a] and [b]; [m.csv] holds
    the letter [a] and the byte 0xFF; [x.txt] holds the letter [a]. *)
Definition names_world : world :=
  world_of [(lit "n.csv", [x61; x0a; x62; x0a]);
            (lit "m.csv", [x61; xff]);
            (lit "x.txt", [x61])].

(** A frame with a missing first cell in its first and third rows. *)
Definition gappy_frame : DataFrame :=
  {| columns := [lit "h"; lit "k"];
     rows := [[NaN; Value (lit "x")]; [Value (lit "y"); NaN]; [NaN; NaN]] |}.

(** A one-page source and a name file with the header [h,k] and the one
    record [,x], whose first field is empty. *)
Definition nan_world : world :=
  world_of [(lit "doc.pdf", [x07]);
            (lit "names.csv", [x68; x2c; x6b; x0a; x2c; x78; x0a])].

(** A workbook that the sample spreadsheet reader rejects. *)
Definition excel_world : world :=
  world_of [(lit "book.xlsx", [x50; x4b])].

(** A three-page source and a name file with the header [h] and the two
    names [a] and [b]. *)
Definition mismatch_world : world :=
  world_of [(lit "doc.pdf", [x07; x08; x09]);
            (lit "names.csv", [x68; x0a; x61; x0a; x62; x0a])].



(** ** The program *)

Section PDFSplitterApp.
Local Open Scope py_scope.

(** *** What the libraries supply *)

(** The Unicode character database beyond ASCII, and [str.lower]. *)
Variable unicode_isalnum : char -> bool.
Variable unicode_isspace : char -> bool.
Variable lower : pystr -> pystr.

(** [chardet.detect(rawdata)['encoding']]: a codec name or [None]. *)
Variable chardet_detect : list byte -> option pystr.

(** The decoder registered under a codec name other than [latin1]
    (an unknown name raises [LookupError], an [OtherError] here). *)
Variable codec_decode : pystr -> list byte -> exception + pystr.

(** The pandas tokenizer under the default dialect: the records of a text,
    each a list of fields, blank lines skipped, or the text of the
    [ParserError] it raises. *)
Variable tokenize : pystr -> pystr + list (list pystr).

(** The pandas conversion of the records below the header into typed
    cells (missing-value markers, column types). *)
Variable convert : list pystr -> list (list pystr) -> list (list cell).

(** The records of the first sheet of a workbook. *)
Variable excel_sheet : list byte -> exception + list (list pystr).

(** PyPDF2: the page objects of a document ([PdfReader(f).pages]), and
    the bytes [PdfWriter.write] emits for a list of added pages. *)
Variable Page : Type.
Variable pdf_pages : list byte -> exception + list Page.
Variable pdf_write : list Page -> list byte.

(** The text of the [OSError] that [open(path, 'wb')] raises at a path,
    if any (missing directory, no permission, name too long). *)
Variable open_wb_error : pystr -> option pystr.

(** *** The file-name sanitizer of [split_pdf] *)

(** [c.isalnum()] *)
Definition isalnum (c : char) : bool :=
  if c <? 128 then ascii_isalnum c else unicode_isalnum c.

(** [c.isspace()], the test [str.strip()] applies at both ends. *)
Definition isspace (c : char) : bool :=
  if c <? 128 then ascii_isspace c else unicode_isspace c.

(** [s.strip()] *)
Definition strip (s : pystr) : pystr :=
  rstrip_with isspace (lstrip_with isspace s).

(** The condition of the generator expression in [split_pdf]:
    [c.isalnum() or c in (' ', '_', '-', '(', ')', '（', '）')]. *)
Definition keep_char (c : char) : bool :=
  isalnum c || bool_decide (c ∈ extra_chars).

(** ["".join(c for c in str(name).strip() if ...)] *)
Definition filtered (name : pystr) : pystr :=
  List.filter keep_char (strip name).

(** [f"page_{i+1}"] *)
Definition page_fallback (i : nat) : pystr :=
  lit "page_" ++ str_of_nat (i + 1).

(** [safe_name] of [split_pdf], for the loop index [i] (0-based) and the
    name at that index; [x or y] is [y] when [x] is the empty string. *)
Definition safe_name (i : nat) (name : pystr) : pystr :=
  match filtered name with
  | [] => page_fallback i
  | kept => kept
  end.

(** *** pandas with the arguments the program passes *)

(** [bytes.decode(raw, encoding)] as the file object of [read_csv] does
    it; [encoding=None] is pandas' default ["utf-8"]. *)
Definition decode (encoding : option pystr) (raw : list byte)
  : exception + pystr :=
  let name := default (lit "utf-8") encoding in
  if bool_decide (name = lit "latin1") then inr (latin1_decode raw)
  else codec_decode name raw.

(** [header='infer'] without [names] is [header=0]: the first record
    gives the column labels and the records after it are the data.  A text
    without any record raises [EmptyDataError]. *)
Definition frame_of_records (records : list (list pystr))
  : exception + DataFrame :=
  match records with
  | [] => inl (OtherError (lit "No columns to parse from file"))
  | header :: body =>
      inr {| columns := header; rows := convert header body |}
  end.

(** What [read_csv] makes of the bytes of the file: decode, tokenize,
    build the frame. *)
Definition parse_csv (enc : option pystr) (raw : list byte)
  : exception + DataFrame :=
  match decode enc raw with
  | inl e => inl e
  | inr text =>
      match tokenize text with
      | inl msg => inl (OtherError msg)
      | inr records => frame_of_records records
      end
  end.

(** [pd.read_csv(file_path, encoding=enc)] *)
Definition pd_read_csv (file_path : pystr) (enc : option pystr)
  : M DataFrame :=
  log (ReadCsv file_path enc) ;;;
  raw <- read_file file_path ;;
  lift (parse_csv enc raw).

(** [pd.read_excel(file_path)]: [header=0] as well; an empty sheet gives
    an empty frame. *)
Definition pd_read_excel (file_path : pystr) : M DataFrame :=
  log (ReadExcel file_path) ;;;
  raw <- read_file file_path ;;
  records <- lift (excel_sheet raw) ;;
  match records with
  | [] => ret {| columns := []; rows := [] |}
  | header :: body =>
      ret {| columns := header; rows := convert header body |}
  end.

(** *** [detect_file_encoding] *)

Definition detect_file_encoding (file_path : pystr) : M (option pystr) :=
  data <- read_file file_path ;;
  let rawdata := take (N.to_nat 100000) data in
  ret (chardet_detect rawdata).

(** *** [read_name_file] *)

(** How the [for enc in encodings_to_try] loop is left. *)
Inductive loop_exit :=
  | Returned (df : DataFrame)
  | Broke
  | Exhausted.

Fixpoint try_encodings (file_path : pystr)
    (encodings_to_try : list (option pystr)) : M loop_exit :=
  match encodings_to_try with
  | [] => ret Exhausted
  | enc :: rest =>
      r <- attempt (pd_read_csv file_path enc) ;;
      match r with
      | inr df => ret (Returned df)
      | inl (UnicodeDecodeError _) => try_encodings file_path rest
      | inl _ => ret Broke
      end
  end.

(** The second and third statements of [read_name_file]: the Excel branch
    and the final [raise]. *)
Definition read_name_file_tail (file_path : pystr) : M DataFrame :=
  if endswith_any (lower file_path) [lit ".xls"; lit ".xlsx"] then
    r <- attempt (pd_read_excel file_path) ;;
    match r with
    | inr df => ret df
    | inl e => raise (ValueError (msg_excel_failed e))
    end
  else raise (ValueError msg_cannot_read).

Definition encodings_to_try (encoding : option pystr)
  : list (option pystr) :=
  encoding :: fixed_encodings.

Definition read_name_file (file_path : pystr) : M DataFrame :=
  found <- os_path_exists file_path ;;
  if negb found then raise (FileNotFoundError msg_file_missing)
  else if endswith (lower file_path) (lit ".csv") then
    encoding <- detect_file_encoding file_path ;;
    out <- try_encodings file_path (encodings_to_try encoding) ;;
    match out with
    | Returned df => ret df
    | Broke | Exhausted => read_name_file_tail file_path
    end
  else read_name_file_tail file_path.

(** *** [split_pdf] *)

(** [reader.pages[i]] *)
Definition pages_getitem (pages : list Page) (i : nat) : M Page :=
  match pages !! i with
  | Some page => ret page
  | None => raise (IndexError (lit "sequence index out of range"))
  end.

(** [with open(output_path, 'wb') as output_pdf: writer.write(output_pdf)] *)
Definition write_file (path : pystr) (data : list byte) : M unit :=
  match open_wb_error path with
  | Some msg => raise (OSError msg)
  | None =>
      modify (fun w => World (<[path := data]> (files w))
                             (progress_maximum w) (progress_value w)
                             (trace w ++ [WriteFile path data]))
  end.

(** [os.path.join(output_folder, f"{safe_name}.pdf")] for the name at
    index [i]. *)
Definition output_path (output_folder : pystr) (i : nat) (name : pystr)
  : pystr :=
  os_path_join output_folder (safe_name i name ++ lit ".pdf").

(** The body of [for i, name in enumerate(names)], from index [i] on. *)
Fixpoint split_loop (pages : list Page) (output_folder : pystr) (i : nat)
    (names : list pystr) : M unit :=
  match names with
  | [] => ret tt
  | name :: rest =>
      page <- pages_getitem pages i ;;
      write_file (output_path output_folder i name) (pdf_write [page]) ;;;
      set_progress_value (i + 1) ;;;
      split_loop pages output_folder (S i) rest
  end.

Definition split_pdf (pdf_path output_folder : pystr) (names : list pystr)
  : M unit :=
  found <- os_path_exists pdf_path ;;
  if negb found then raise (FileNotFoundError msg_pdf_missing)
  else
    raw <- read_file pdf_path ;;
    pages <- lift (pdf_pages raw) ;;
    let total_pages := length pages in
    if negb (length names =? total_pages)%nat then
      raise (ValueError (msg_count_mismatch (length names) total_pages))
    else
      set_progress_maximum total_pages ;;;
      set_progress_value 0 ;;;
      split_loop pages output_folder 0 names.

(** The writes a job is expected to make from index [i] on: for each name
    and the page at the same index, the page alone, written under the
    sanitised name. *)
Fixpoint page_writes (output_folder : pystr) (i : nat) (names : list pystr)
    (pages : list Page) : list (pystr * list byte) :=
  match names, pages with
  | name :: names', page :: pages' =>
      (output_path output_folder i name, pdf_write [page])
      :: page_writes output_folder (S i) names' pages'
  | _, _ => []
  end.

(** *** [start_split] *)

(** The [try] block of [start_split]. *)
Definition start_split_body (pdf_path output_folder csv_path : pystr)
  : M dialog :=
  df <- read_name_file csv_path ;;
  if df_empty df then ret (showerror title_error msg_names_empty)
  else
    let names := first_column_names df in
    split_pdf pdf_path output_folder names ;;;
    ret (showinfo title_done (msg_done names output_folder)).

(** [start_split], with the three entry fields as arguments and the
    dialog it shows as result. *)
Definition start_split (pdf_path output_folder csv_path : pystr)
  : M dialog :=
  if negb (forallb (fun s => negb (bool_decide (s = [])))
             [pdf_path; output_folder; csv_path])
  then ret (showerror title_error msg_fill_all)
  else if negb (endswith (lower pdf_path) (lit ".pdf"))
  then ret (showerror title_error msg_need_pdf)
  else
    r <- attempt (start_split_body pdf_path output_folder csv_path) ;;
    match r with
    | inr shown => ret shown
    | inl e =>
        set_progress_value 0 ;;;
        ret (showerror title_error (msg_failed e))
    end.

(** ** Properties of the sanitizer *)

Lemma lit_cons (a : ascii) (s : string) :
  lit (String a s) = N_of_ascii a :: lit s.
Proof. reflexivity. Qed.

Lemma pretty_N_char_digit (x : N) :
  is_digit (N_of_ascii (pretty_N_char x)) = true.
Proof.
  unfold pretty_N_char. repeat case_match; reflexivity.
Qed.

Lemma pretty_N_go_digits (x : N) :
  ∀ s, forallb is_digit (lit s) = true →
       forallb is_digit (lit (pretty_N_go x s)) = true.
Proof.
  induction (N.lt_wf_0 x) as [x _ IH]. intros s Hs.
  destruct (decide (x = 0)) as [->|Hx].
  - by rewrite pretty_N_go_0.
  - rewrite pretty_N_go_step by lia.
    apply IH; [apply N.div_lt; lia|].
    rewrite lit_cons. simpl. by rewrite pretty_N_char_digit, Hs.
Qed.

Lemma str_of_nat_digits (n : nat) :
  forallb is_digit (str_of_nat n) = true.
Proof.
  unfold str_of_nat, pretty, pretty_nat, pretty, pretty_N.
  case_decide; [reflexivity|]. by apply pretty_N_go_digits.
Qed.

Lemma digit_legal (c : char) : is_digit c = true → legal_char c = true.
Proof.
  unfold is_digit, legal_char, reserved_chars. intros H.
  apply andb_true_iff in H as [H1 H2].
  apply N.leb_le in H1. apply N.leb_le in H2.
  rewrite !andb_true_iff, !negb_true_iff. repeat split.
  - apply N.ltb_ge. lia.
  - apply N.eqb_neq. lia.
  - apply bool_decide_eq_false. rewrite !elem_of_cons, elem_of_nil. lia.
Qed.

Lemma ascii_isalnum_legal (c : char) :
  ascii_isalnum c = true → legal_char c = true.
Proof.
  unfold ascii_isalnum, legal_char, reserved_chars. intros H.
  rewrite !orb_true_iff, !andb_true_iff, !N.leb_le in H.
  rewrite !andb_true_iff, !negb_true_iff. repeat split.
  - apply N.ltb_ge. lia.
  - apply N.eqb_neq. lia.
  - apply bool_decide_eq_false. rewrite !elem_of_cons, elem_of_nil. lia.
Qed.

Lemma high_char_legal (c : char) : 128 ≤ c → legal_char c = true.
Proof.
  unfold legal_char, reserved_chars. intros H.
  rewrite !andb_true_iff, !negb_true_iff. repeat split.
  - apply N.ltb_ge. lia.
  - apply N.eqb_neq. lia.
  - apply bool_decide_eq_false. rewrite !elem_of_cons, elem_of_nil. lia.
Qed.

(** Whatever the generator expression keeps may stand in a file name. *)
Lemma keep_char_legal (c : char) :
  keep_char c = true → legal_char c = true.
Proof.
  unfold keep_char, isalnum. intros H.
  apply orb_true_iff in H as [H|H].
  - destruct (c <? 128) eqn:Hc.
    + by apply ascii_isalnum_legal.
    + apply high_char_legal. by apply N.ltb_ge.
  - apply bool_decide_eq_true in H. unfold extra_chars in H.
    rewrite !elem_of_cons, elem_of_nil in H.
    destruct H as [->|[->|[->|[->|[->|[->|[->|[]]]]]]]]; reflexivity.
Qed.

Lemma filtered_kept (name : pystr) :
  forallb keep_char (filtered name) = true.
Proof.
  unfold filtered. apply forallb_forall. intros c Hc.
  by apply filter_In in Hc as [_ Hc].
Qed.

Lemma forallb_impl {A} (f g : A → bool) (l : list A) :
  (∀ x, f x = true → g x = true) →
  forallb f l = true → forallb g l = true.
Proof.
  intros Hfg. rewrite !forallb_forall. auto.
Qed.

Lemma page_fallback_legal (i : nat) :
  forallb legal_char (page_fallback i) = true.
Proof.
  unfold page_fallback. rewrite forallb_app. apply andb_true_iff. split.
  - reflexivity.
  - eapply forallb_impl; [apply digit_legal|apply str_of_nat_digits].
Qed.

Lemma safe_name_cases (i : nat) (name : pystr) :
  safe_name i name =
    if bool_decide (filtered name = []) then page_fallback i
    else filtered name.
Proof.
  unfold safe_name. by destruct (filtered name).
Qed.


Lemma safe_name_legal_chars (i : nat) (name : pystr) :
  forallb legal_char (safe_name i name) = true.
Proof.
  rewrite safe_name_cases. case_bool_decide.
  - apply page_fallback_legal.
  - eapply forallb_impl; [apply keep_char_legal|apply filtered_kept].
Qed.


(** *** What [strip] removes *)

Lemma lstrip_with_split (sp : char → bool) (s : pystr) :
  ∃ leading, s = leading ++ lstrip_with sp s
             ∧ forallb sp leading = true.
Proof.
  induction s as [|c s [leading [Heq Hsp]]]; simpl.
  - by exists [].
  - destruct (sp c) eqn:Hc.
    + exists (c :: leading). simpl. rewrite Hc, Hsp. split; [|done].
      by rewrite <-Heq.
    + by exists [].
Qed.


Lemma forallb_reverse {A} (f : A → bool) (l : list A) :
  forallb f (reverse l) = forallb f l.
Proof.
  induction l as [|x l IH]; [done|].
  rewrite reverse_cons, forallb_app, IH. simpl.
  rewrite andb_true_r. apply andb_comm.
Qed.

Lemma rstrip_with_split (sp : char → bool) (s : pystr) :
  ∃ trailing, s = rstrip_with sp s ++ trailing
              ∧ forallb sp trailing = true.
Proof.
  unfold rstrip_with.
  destruct (lstrip_with_split sp (reverse s)) as [leading [Heq Hsp]].
  exists (reverse leading). split.
  - rewrite <-reverse_app, <-Heq. by rewrite reverse_involutive.
  - by rewrite forallb_reverse.
Qed.



Lemma strip_split (name : pystr) :
  ∃ leading trailing,
    name = leading ++ strip name ++ trailing
    ∧ forallb isspace leading = true
    ∧ forallb isspace trailing = true.
Proof.
  unfold strip.
  destruct (lstrip_with_split isspace name) as [leading [H1 Hl]].
  destruct (rstrip_with_split isspace (lstrip_with isspace name))
    as [trailing [H2 Ht]].
  exists leading, trailing. split; [|done].
  by rewrite <-H2.
Qed.



(** *** Alphanumeric characters survive *)

Lemma ascii_space_not_alnum (c : char) :
  ascii_isspace c = true → ascii_isalnum c = false.
Proof.
  unfold ascii_isspace, ascii_isalnum.
  rewrite !orb_true_iff, !andb_true_iff, !N.leb_le. intros H.
  rewrite !orb_false_iff, !andb_false_iff, !N.leb_gt. lia.
Qed.

Lemma filter_none {A} (f g : A → bool) (l : list A) :
  (∀ x, f x = true → g x = false) →
  forallb f l = true → List.filter g l = [].
Proof.
  intros Hfg. induction l as [|x l IH]; simpl; [done|].
  intros [Hx Hl]%andb_true_iff. rewrite (Hfg x Hx). auto.
Qed.

Lemma filter_sublist_impl {A} (f g : A → bool) (l : list A) :
  (∀ x, f x = true → g x = true) →
  List.filter f l `sublist_of` List.filter g l.
Proof.
  intros Hfg. induction l as [|x l IH]; simpl; [done|].
  destruct (f x) eqn:Hf.
  - rewrite (Hfg x Hf). by constructor.
  - destruct (g x); [by constructor|done].
Qed.

Section Disjoint.
(** In the Unicode database no whitespace character is a letter or a
    digit. *)
Hypothesis space_not_alnum :
  ∀ c, 128 ≤ c → unicode_isspace c = true → unicode_isalnum c = false.

Lemma isspace_not_isalnum (c : char) :
  isspace c = true → isalnum c = false.
Proof.
  unfold isspace, isalnum. destruct (c <? 128) eqn:Hc.
  - apply ascii_space_not_alnum.
  - apply space_not_alnum. by apply N.ltb_ge.
Qed.

Lemma strip_keeps_alnum (name : pystr) :
  List.filter isalnum (strip name) = List.filter isalnum name.
Proof.
  destruct (strip_split name) as [leading [trailing [Heq [Hl Ht]]]].
  rewrite Heq at 2. rewrite !List.filter_app.
  rewrite (filter_none isspace isalnum leading),
          (filter_none isspace isalnum trailing)
    by auto using isspace_not_isalnum.
  by rewrite app_nil_r.
Qed.

Lemma alnum_sublist_filtered (name : pystr) :
  List.filter isalnum name `sublist_of` filtered name.
Proof.
  rewrite <-strip_keeps_alnum. unfold filtered.
  apply filter_sublist_impl. intros c Hc. unfold keep_char.
  by rewrite Hc.
Qed.

Lemma alnum_in_filtered (name : pystr) (c : char) :
  c ∈ name → isalnum c = true → c ∈ filtered name.
Proof.
  intros Hin Hc.
  eapply elem_of_sublist; [|apply alnum_sublist_filtered].
  apply list_elem_of_In, filter_In. split; [|done].
  by apply list_elem_of_In.
Qed.

(** C10: the alphanumeric test is the Unicode one (beyond ASCII,
    [isalnum] is the database's answer), and every alphanumeric character
    of a name, CJK letters included, is in the output base name; the
    alphanumeric characters of the name appear there in their order. *)
Theorem safe_name_keeps_alnum (i : nat) (name : pystr) (c : char) :
  c ∈ name → isalnum c = true →
  (128 ≤ c → unicode_isalnum c = true)
  ∧ c ∈ safe_name i name
  ∧ List.filter isalnum name `sublist_of` safe_name i name.
Proof.
  intros Hin Hc.
  pose proof (alnum_in_filtered name c Hin Hc) as Hf.
  split.
  { intros Hhigh. unfold isalnum in Hc.
    apply N.ltb_ge in Hhigh. by rewrite Hhigh in Hc. }
  rewrite safe_name_cases. case_bool_decide as Hempty.
  - rewrite Hempty in Hf. by apply elem_of_nil in Hf.
  - split; [done|apply alnum_sublist_filtered].
Qed.
End Disjoint.

(** ** Properties of the name-file reader *)

Lemma endswith_spec (s suffix : pystr) :
  endswith s suffix = true ↔ ∃ t, s = t ++ suffix.
Proof.
  unfold endswith. rewrite bool_decide_eq_true. split.
  - intros H. exists (take (length s - length suffix) s).
    etrans; [symmetry; apply (take_drop (length s - length suffix))|].
    by rewrite H.
  - intros [t ->]. rewrite length_app.
    replace (length t + length suffix - length suffix)%nat
      with (length t) by lia.
    by rewrite drop_app_length.
Qed.

Lemma endswith_last (s suffix : pystr) (c : char) :
  endswith s suffix = true → last suffix = Some c → last s = Some c.
Proof.
  intros [t ->]%endswith_spec Hc.
  destruct suffix as [|x suffix _] using rev_ind; [done|].
  rewrite app_assoc, last_snoc. by rewrite last_snoc in Hc.
Qed.

(** A path that ends in [.csv] does not end in [.xls] or [.xlsx]. *)
Lemma csv_not_excel (s : pystr) :
  endswith s (lit ".csv") = true →
  endswith_any s [lit ".xls"; lit ".xlsx"] = false.
Proof.
  intros Hcsv. unfold endswith_any. simpl.
  pose proof (endswith_last s _ 118 Hcsv eq_refl) as Hlast.
  destruct (endswith s (lit ".xls")) eqn:H1.
  { pose proof (endswith_last s _ 115 H1 eq_refl). congruence. }
  destruct (endswith s (lit ".xlsx")) eqn:H2.
  { pose proof (endswith_last s _ 120 H2 eq_refl). congruence. }
  reflexivity.
Qed.

Lemma logged_logged (w : world) (evs1 evs2 : list event) :
  logged (logged w evs1) evs2 = logged w (evs1 ++ evs2).
Proof. unfold logged. simpl. by rewrite app_assoc. Qed.

Lemma logged_nil (w : world) : logged w [] = w.
Proof. destruct w. unfold logged. simpl. by rewrite app_nil_r. Qed.

Lemma pd_read_csv_run (file_path : pystr) (enc : option pystr)
    (raw : list byte) (w : world) :
  files w !! file_path = Some raw →
  pd_read_csv file_path enc w
  = (parse_csv enc raw, logged w [ReadCsv file_path enc]).
Proof.
  intros H. unfold pd_read_csv, bind, log, modify, read_file, lift. simpl.
  by rewrite H.
Qed.

Lemma pd_read_csv_missing (file_path : pystr) (enc : option pystr)
    (w : world) :
  files w !! file_path = None →
  ∃ msg, pd_read_csv file_path enc w
         = (inl (FileNotFoundError msg), logged w [ReadCsv file_path enc]).
Proof.
  intros H. unfold pd_read_csv, bind, log, modify, read_file, lift. simpl.
  rewrite H. eauto.
Qed.

(** Decoding as [latin1] cannot fail, and loses no byte. *)
Lemma decode_latin1 (raw : list byte) :
  decode (Some (lit "latin1")) raw = inr (latin1_decode raw).
Proof. reflexivity. Qed.

Lemma latin1_roundtrip (raw : list byte) :
  latin1_encode (latin1_decode raw) = Some raw.
Proof.
  unfold latin1_encode, latin1_decode. apply mapM_Some_2.
  induction raw as [|b raw IH]; simpl; constructor; [|done].
  apply Byte.of_to_N.
Qed.

Lemma parse_csv_latin1 (raw : list byte) :
  decoding_failed (parse_csv (Some (lit "latin1")) raw) = false.
Proof.
  unfold parse_csv. rewrite decode_latin1.
  destruct (tokenize _) as [msg|[|header body]]; reflexivity.
Qed.

(** Candidates that fail to decode are passed over, one call each. *)
Lemma try_encodings_skip (file_path : pystr) (raw : list byte)
    (pre rest : list (option pystr)) :
  ∀ w, files w !! file_path = Some raw →
       forallb (fun e => decoding_failed (parse_csv e raw)) pre = true →
       try_encodings file_path (pre ++ rest) w
       = try_encodings file_path rest
           (logged w (map (ReadCsv file_path) pre)).
Proof.
  induction pre as [|e pre IH]; intros w Hw Hpre; simpl.
  - by rewrite logged_nil.
  - simpl in Hpre. apply andb_true_iff in Hpre as [He Hpre].
    unfold bind at 1, attempt. rewrite (pd_read_csv_run _ _ raw) by done.
    destruct (parse_csv e raw) as [[]|]; try discriminate He.
    rewrite IH by done. by rewrite logged_logged.
Qed.

(** The first candidate that does not fail to decode ends the loop. *)
Lemma try_encodings_stop (file_path : pystr) (raw : list byte)
    (enc : option pystr) (post : list (option pystr)) (w : world) :
  files w !! file_path = Some raw →
  decoding_failed (parse_csv enc raw) = false →
  try_encodings file_path (enc :: post) w
  = (inr match parse_csv enc raw with
         | inr df => Returned df
         | inl _ => Broke
         end, logged w [ReadCsv file_path enc]).
Proof.
  intros Hw He. simpl.
  unfold bind at 1, attempt. rewrite (pd_read_csv_run _ _ raw) by done.
  by destruct (parse_csv enc raw) as [[]|]; try discriminate He.
Qed.


(** With [latin1] as last candidate the list is never run through. *)
Lemma try_encodings_latin1_last (file_path : pystr)
    (encs : list (option pystr)) :
  ∀ w, (try_encodings file_path (encs ++ [Some (lit "latin1")]) w).1
       ≠ inr Exhausted.
Proof.
  induction encs as [|e encs IH]; intros w.
  - simpl. unfold bind at 1, attempt.
    destruct (files w !! file_path) as [raw|] eqn:Hw.
    + rewrite (pd_read_csv_run _ _ raw) by done.
      pose proof (parse_csv_latin1 raw) as Hl.
      by destruct (parse_csv _ raw) as [[]|].
    + destruct (pd_read_csv_missing file_path (Some (lit "latin1")) w Hw)
        as [msg ->]. done.
  - simpl. unfold bind at 1, attempt.
    destruct (pd_read_csv file_path e w) as [[[]|df] w1]; simpl;
      first [apply IH | discriminate].
Qed.

Lemma detect_file_encoding_run (file_path : pystr) (raw : list byte)
    (w : world) :
  files w !! file_path = Some raw →
  detect_file_encoding file_path w
  = (inr (chardet_detect (take (N.to_nat 100000) raw)), w).
Proof.
  intros H. unfold detect_file_encoding, bind, read_file, ret.
  by rewrite H.
Qed.

Lemma os_path_exists_run (path : pystr) (w : world) :
  os_path_exists path w = (inr (bool_decide (is_Some (files w !! path))), w).
Proof. reflexivity. Qed.

(** [read_name_file] on an existing [.csv] path, in terms of the loop. *)
Lemma read_name_file_csv (file_path : pystr) (raw : list byte) (w : world) :
  files w !! file_path = Some raw →
  endswith (lower file_path) (lit ".csv") = true →
  read_name_file file_path w =
    match try_encodings file_path
            (encodings_to_try (chardet_detect (take (N.to_nat 100000) raw)))
            w with
    | (inr (Returned df), w') => (inr df, w')
    | (inr _, w') => (inl (ValueError msg_cannot_read), w')
    | (inl e, w') => (inl e, w')
    end.
Proof.
  intros Hw Hcsv. unfold read_name_file.
  unfold bind at 1. rewrite os_path_exists_run.
  rewrite bool_decide_eq_true_2 by (rewrite Hw; eauto). cbn [negb].
  rewrite Hcsv. unfold bind at 1.
  rewrite (detect_file_encoding_run _ raw) by done.
  unfold bind at 1.
  destruct (try_encodings file_path _ w) as [[e|out] w1]; [done|].
  unfold read_name_file_tail. rewrite (csv_not_excel _ Hcsv).
  by destruct out.
Qed.

(** The run of [read_name_file] on a [.csv] file, given the first candidate
    [enc] that does not fail to decode. *)
Lemma read_name_file_csv_at (file_path : pystr) (raw : list byte)
    (w : world) (pre post : list (option pystr)) (enc : option pystr) :
  files w !! file_path = Some raw →
  endswith (lower file_path) (lit ".csv") = true →
  encodings_to_try (chardet_detect (take (N.to_nat 100000) raw))
    = pre ++ enc :: post →
  forallb (fun e => decoding_failed (parse_csv e raw)) pre = true →
  decoding_failed (parse_csv enc raw) = false →
  read_name_file file_path w
  = (match parse_csv enc raw with
     | inr df => inr df
     | inl _ => inl (ValueError msg_cannot_read)
     end,
     logged w (map (ReadCsv file_path) (pre ++ [enc]))).
Proof.
  intros Hw Hcsv Hencs Hpre Henc.
  rewrite (read_name_file_csv _ raw) by done.
  rewrite Hencs, (try_encodings_skip _ raw) by done.
  rewrite (try_encodings_stop _ raw) by done.
  rewrite logged_logged, map_app. simpl.
  by destruct (parse_csv enc raw).
Qed.

(** A list that ends in a candidate that cannot fail to decode has a first
    candidate that does not fail to decode. *)
Lemma first_candidate (raw : list byte) (final : option pystr)
    (encs : list (option pystr)) :
  decoding_failed (parse_csv final raw) = false →
  ∃ pre enc post,
    encs ++ [final] = pre ++ enc :: post
    ∧ forallb (fun e => decoding_failed (parse_csv e raw)) pre = true
    ∧ decoding_failed (parse_csv enc raw) = false.
Proof.
  intros Hfinal. induction encs as [|e encs IH].
  - by exists [], final, [].
  - destruct (decoding_failed (parse_csv e raw)) eqn:He.
    + destruct IH as [pre [enc [post [Heq [Hpre Henc]]]]].
      exists (e :: pre), enc, post. simpl. rewrite He, Hpre, Heq. done.
    + by exists [], e, (encs ++ [final]).
Qed.

(** C5: on every existing [.csv] file the candidate list splits into the
    candidates [pre] that raise a decoding error, the first candidate [enc]
    that does not, and the rest [post]; the reader calls [read_csv] with the
    candidates of [pre] and then with [enc], in this order, and with none of
    [post]; it returns the frame [enc] gives, or, when [enc] fails in any
    other way, raises [ValueError("无法读取文件，请检查文件格式和编码")]. *)
Theorem read_name_file_csv_fallback (file_path : pystr) (raw : list byte)
    (w : world) :
  files w !! file_path = Some raw →
  endswith (lower file_path) (lit ".csv") = true →
  ∃ pre enc post,
    encodings_to_try (chardet_detect (take (N.to_nat 100000) raw))
      = pre ++ enc :: post
    ∧ forallb (fun e => decoding_failed (parse_csv e raw)) pre = true
    ∧ decoding_failed (parse_csv enc raw) = false
    ∧ read_name_file file_path w
      = (match parse_csv enc raw with
         | inr df => inr df
         | inl _ => inl (ValueError msg_cannot_read)
         end,
         logged w (map (ReadCsv file_path) (pre ++ [enc]))).
Proof.
  intros Hw Hcsv.
  destruct (first_candidate raw (Some (lit "latin1"))
              (chardet_detect (take (N.to_nat 100000) raw)
                 :: removelast fixed_encodings)
              (parse_csv_latin1 raw))
    as [pre [enc [post [Heq [Hpre Henc]]]]].
  exists pre, enc, post. split; [exact Heq|]. split; [done|].
  split; [done|]. by apply (read_name_file_csv_at _ raw _ pre post).
Qed.

(** C6: the candidate list ends in [latin1]; [latin1] decodes every byte
    sequence and loses no byte; so the loop over the candidates is never left
    with all of them exhausted, and [detect_file_encoding] returns (raises
    nothing, changes nothing) on every file. *)
Theorem encoding_fallback_total (file_path : pystr) (raw : list byte)
    (w : world) (encoding : option pystr) :
  files w !! file_path = Some raw →
  last (encodings_to_try encoding) = Some (Some (lit "latin1"))
  ∧ decode (Some (lit "latin1")) raw = inr (latin1_decode raw)
  ∧ latin1_encode (latin1_decode raw) = Some raw
  ∧ decoding_failed (parse_csv (Some (lit "latin1")) raw) = false
  ∧ (∀ w0, (try_encodings file_path (encodings_to_try encoding) w0).1
           ≠ inr Exhausted)
  ∧ detect_file_encoding file_path w
    = (inr (chardet_detect (take (N.to_nat 100000) raw)), w)
  ∧ encodings_to_try (chardet_detect (take (N.to_nat 100000) raw))
    = chardet_detect (take (N.to_nat 100000) raw)
        :: removelast fixed_encodings ++ [Some (lit "latin1")].
Proof.
  intros Hw.
  split; [reflexivity|].
  split; [apply decode_latin1|].
  split; [apply latin1_roundtrip|].
  split; [apply parse_csv_latin1|].
  split.
  { intros w0.
    apply (try_encodings_latin1_last file_path
             (encoding :: removelast fixed_encodings)). }
  split; [by apply detect_file_encoding_run|].
  reflexivity.
Qed.




(** *** The first row *)



Lemma pd_read_excel_run (file_path : pystr) (raw : list byte) (w : world) :
  files w !! file_path = Some raw →
  pd_read_excel file_path w
  = (match excel_sheet raw with
     | inl e => inl e
     | inr [] => inr {| columns := []; rows := [] |}
     | inr (header :: body) =>
         inr {| columns := header; rows := convert header body |}
     end, logged w [ReadExcel file_path]).
Proof.
  intros H. unfold pd_read_excel, bind, log, modify, read_file, lift. simpl.
  rewrite H. by destruct (excel_sheet raw) as [e|[|header body]].
Qed.



(** ** Properties of the split *)

(** *** Paths *)

Lemma os_path_join_prefix (folder base : pystr) :
  head base ≠ Some 47 →
  os_path_join folder base = folder_prefix folder ++ base.
Proof.
  intros Hb. unfold os_path_join, folder_prefix.
  rewrite bool_decide_eq_false_2 by done.
  destruct (bool_decide (folder = []) || endswith folder [47]); [done|].
  by rewrite <-app_assoc.
Qed.

Lemma legal_chars_no_slash (s : pystr) :
  forallb legal_char s = true → 47 ∉ s.
Proof.
  intros Hs Hin. apply list_elem_of_In in Hin.
  by apply (proj1 (forallb_forall _ _) Hs) in Hin.
Qed.

Lemma pdf_name_no_slash (i : nat) (name : pystr) :
  47 ∉ safe_name i name ++ lit ".pdf".
Proof.
  apply legal_chars_no_slash. rewrite forallb_app, safe_name_legal_chars.
  reflexivity.
Qed.

Lemma pdf_name_head (i : nat) (name : pystr) :
  head (safe_name i name ++ lit ".pdf") ≠ Some 47.
Proof.
  intros H. apply (pdf_name_no_slash i name).
  destruct (safe_name i name ++ lit ".pdf") as [|c s]; [done|].
  injection H as ->. apply list_elem_of_here.
Qed.

Lemma output_path_prefix (output_folder : pystr) (i : nat) (name : pystr) :
  output_path output_folder i name
  = folder_prefix output_folder ++ safe_name i name ++ lit ".pdf".
Proof. unfold output_path. apply os_path_join_prefix, pdf_name_head. Qed.

(** Two output paths of a job agree exactly when the sanitised names do. *)
Lemma output_path_inj (output_folder : pystr) (i j : nat)
    (name name' : pystr) :
  output_path output_folder i name = output_path output_folder j name'
  ↔ safe_name i name = safe_name j name'.
Proof.
  rewrite !output_path_prefix. split.
  - intros H. apply app_inv_head in H. by apply app_inv_tail in H.
  - by intros ->.
Qed.

Lemma output_path_in_folder (output_folder : pystr) (i : nat)
    (name : pystr) :
  in_folder output_folder (output_path output_folder i name) = true.
Proof.
  rewrite output_path_prefix. unfold in_folder.
  rewrite take_app_length, drop_app_length.
  rewrite bool_decide_eq_true_2 by done.
  rewrite bool_decide_eq_false_2
    by (intros H; apply app_eq_nil in H as [_ H]; discriminate H).
  rewrite bool_decide_eq_false_2 by apply pdf_name_no_slash.
  reflexivity.
Qed.

(** *** File systems after writes *)

Lemma apply_writes_snoc (fs : gmap pystr (list byte))
    (ws : list (pystr * list byte)) (path : pystr) (data : list byte) :
  apply_writes fs (ws ++ [(path, data)])
  = <[path := data]> (apply_writes fs ws).
Proof. unfold apply_writes. by rewrite foldl_app. Qed.

Lemma apply_writes_cons (fs : gmap pystr (list byte))
    (ws : list (pystr * list byte)) (path : pystr) (data : list byte) :
  apply_writes fs ((path, data) :: ws)
  = apply_writes (<[path := data]> fs) ws.
Proof. reflexivity. Qed.

Lemma apply_writes_lookup_other (ws : list (pystr * list byte))
    (path : pystr) :
  ∀ fs, path ∉ ws.*1 → apply_writes fs ws !! path = fs !! path.
Proof.
  induction ws as [|[p d] ws IH]; intros fs Hnot; [done|].
  rewrite apply_writes_cons. rewrite fmap_cons, not_elem_of_cons in Hnot.
  destruct Hnot as [Hne Hnot]. simpl in Hne.
  rewrite IH by done. by rewrite lookup_insert_ne.
Qed.

(** The last write to a path decides what it holds. *)
Lemma apply_writes_lookup_last (fs : gmap pystr (list byte))
    (ws1 ws2 : list (pystr * list byte)) (path : pystr) (data : list byte) :
  path ∉ ws2.*1 →
  apply_writes fs (ws1 ++ (path, data) :: ws2) !! path = Some data.
Proof.
  intros Hnot. unfold apply_writes. rewrite foldl_app. simpl.
  fold (apply_writes (<[path:=data]> (foldl (λ fs' w, <[w.1:=w.2]> fs') fs ws1)) ws2).
  rewrite apply_writes_lookup_other by done. apply lookup_insert_eq.
Qed.

Lemma apply_writes_dom (ws : list (pystr * list byte)) :
  ∀ fs, dom (apply_writes fs ws) = dom fs ∪ list_to_set ws.*1.
Proof.
  clear. induction ws as [|[p d] ws IH]; intros fs.
  - simpl. by rewrite (right_id_L ∅ (∪)).
  - rewrite apply_writes_cons, IH, dom_insert_L. simpl.
    rewrite (comm_L (∪) {[p]} (dom fs)). by rewrite (assoc_L (∪)).
Qed.

Lemma listdir_apply_writes (folder : pystr) (fs : gmap pystr (list byte))
    (ws : list (pystr * list byte)) :
  Forall (fun path => in_folder folder path = true) ws.*1 →
  listdir folder (apply_writes fs ws)
  = listdir folder fs ∪ list_to_set ws.*1.
Proof.
  clear. intros Hin. unfold listdir. rewrite apply_writes_dom.
  apply set_eq. intros path.
  rewrite elem_of_union, !elem_of_filter, elem_of_union,
    elem_of_list_to_set.
  rewrite Forall_forall in Hin. split.
  - intros [Hf [Hd|Hw]]; auto.
  - intros [[Hf Hd]|Hw]; [auto|]. split; [|auto].
    rewrite (Hin _ Hw). done.
Qed.

(** *** The extraction loop *)

Lemma page_writes_length (output_folder : pystr) (names : list pystr) :
  ∀ i pages, length names = length pages →
             length (page_writes output_folder i names pages) = length pages.
Proof.
  induction names as [|name names IH]; intros i [|page pages] Hlen;
    simpl in *; try done.
  by rewrite IH by lia.
Qed.

Lemma page_writes_lookup (output_folder : pystr) (names : list pystr) :
  ∀ i pages k name page,
    names !! k = Some name → pages !! k = Some page →
    page_writes output_folder i names pages !! k
    = Some (output_path output_folder (i + k) name, pdf_write [page]).
Proof.
  induction names as [|n names IH]; intros i [|pg pages] k name page Hn Hp;
    try done.
  destruct k as [|k]; simpl in *.
  - injection Hn as ->. injection Hp as ->. by rewrite Nat.add_0_r.
  - rewrite (IH (S i) pages k name page) by done.
    by replace (S i + k)%nat with (i + S k)%nat by lia.
Qed.


Lemma page_writes_in_folder (output_folder : pystr) (names : list pystr) :
  ∀ i pages,
    Forall (fun path => in_folder output_folder path = true)
      (page_writes output_folder i names pages).*1.
Proof.
  induction names as [|n names IH]; intros i [|pg pages]; simpl;
    try by constructor.
  constructor; [apply output_path_in_folder|apply IH].
Qed.

(** A run of the loop in which every [open] succeeds: all the expected
    writes are made, in order, and the progress bar ends on the last index
    plus one. *)
Lemma split_loop_run (output_folder : pystr) (pages : list Page)
    (names : list pystr) :
  ∀ i w,
    (i + length names = length pages)%nat →
    (∀ k name, names !! k = Some name →
               open_wb_error (output_path output_folder (i + k) name) = None) →
    split_loop pages output_folder i names w
    = (inr tt,
       World
         (apply_writes (files w)
            (page_writes output_folder i names (drop i pages)))
         (progress_maximum w)
         (if names is [] then progress_value w else (i + length names)%nat)
         (trace w ++ map (fun pw => WriteFile pw.1 pw.2)
                       (page_writes output_folder i names (drop i pages)))).
Proof.
  induction names as [|name names IH]; intros i w Hlen Hopen.
  - simpl. unfold ret. destruct w. simpl. by rewrite app_nil_r.
  - simpl in Hlen.
    destruct (lookup_lt_is_Some_2 pages i) as [page Hpage]; [lia|].
    rewrite (drop_S _ _ _ Hpage).
    cbn [split_loop page_writes]. unfold bind at 1, pages_getitem.
    rewrite Hpage. unfold ret at 1. unfold bind at 1, write_file.
    pose proof (Hopen 0%nat name eq_refl) as Ho.
    rewrite Nat.add_0_r in Ho. rewrite Ho.
    unfold modify at 1. unfold bind at 1, set_progress_value, modify.
    rewrite IH; cycle 1.
    { lia. }
    { intros k name' Hk.
      replace (S i + k)%nat with (i + S k)%nat by lia. by apply Hopen. }
    cbn [files progress_maximum progress_value trace apply_writes foldl
         fst snd map].
    f_equal. f_equal.
    + destruct names; simpl; lia.
    + by rewrite <-app_assoc.
Qed.

(** Whatever the loop raises is an [OSError] of [open] or an [IndexError]. *)
Lemma split_loop_errors (output_folder : pystr) (pages : list Page)
    (names : list pystr) :
  ∀ i w e, (split_loop pages output_folder i names w).1 = inl e →
           (∃ msg, e = OSError msg) ∨ (∃ msg, e = IndexError msg).
Proof.
  induction names as [|name names IH]; intros i w e; simpl; [done|].
  unfold bind at 1, pages_getitem.
  destruct (pages !! i) as [page|]; cycle 1.
  { simpl. intros [= <-]. right. eauto. }
  unfold ret at 1. unfold bind at 1, write_file.
  destruct (open_wb_error _) as [msg|].
  { simpl. intros [= <-]. left. eauto. }
  unfold modify at 1. unfold bind at 1, set_progress_value, modify.
  apply IH.
Qed.

(** [split_pdf] up to the loop, for a source that exists and parses. *)
Lemma split_pdf_unfold (pdf_path output_folder : pystr)
    (names : list pystr) (raw : list byte) (pages : list Page) (w : world) :
  files w !! pdf_path = Some raw →
  pdf_pages raw = inr pages →
  split_pdf pdf_path output_folder names w
  = if (length names =? length pages)%nat then
      split_loop pages output_folder 0 names
        (World (files w) (length pages) 0 (trace w))
    else (inl (ValueError (msg_count_mismatch (length names) (length pages))),
          w).
Proof.
  intros Hw Hpages. unfold split_pdf. unfold bind at 1.
  rewrite os_path_exists_run.
  rewrite bool_decide_eq_true_2 by (rewrite Hw; eauto). cbn [negb].
  unfold bind at 1, read_file. rewrite Hw.
  unfold bind at 1, lift. rewrite Hpages.
  destruct (length names =? length pages)%nat; [|done].
  reflexivity.
Qed.

(** C2: for a source that exists and parses, [split_pdf] raises the
    count-mismatch [ValueError] exactly when the number of names differs
    from the number of pages; it then carries both counts, and the world is
    as before: no file written, no call made, the progress bar untouched. *)
Theorem split_pdf_count_mismatch (pdf_path output_folder : pystr)
    (names : list pystr) (raw : list byte) (pages : list Page) (w : world) :
  files w !! pdf_path = Some raw →
  pdf_pages raw = inr pages →
  ((∃ n m, (split_pdf pdf_path output_folder names w).1
           = inl (ValueError (msg_count_mismatch n m)))
   ↔ length names ≠ length pages)
  ∧ (length names ≠ length pages →
     split_pdf pdf_path output_folder names w
     = (inl (ValueError
               (msg_count_mismatch (length names) (length pages))), w)).
Proof.
  intros Hw Hpages. rewrite (split_pdf_unfold _ _ _ raw pages) by done.
  destruct (length names =? length pages)%nat eqn:Hlen.
  - apply Nat.eqb_eq in Hlen. split; [split|]; try done.
    intros [n [m Hrun]].
    apply split_loop_errors in Hrun as [[msg H]|[msg H]]; discriminate H.
  - apply Nat.eqb_neq in Hlen. split; [split|]; try done.
    intros _. by exists (length names), (length pages).
Qed.

Lemma writes_app (tr1 tr2 : list event) :
  writes (tr1 ++ tr2) = writes tr1 ++ writes tr2.
Proof. unfold writes. apply omap_app. Qed.

Lemma writes_of_writes (ws : list (pystr * list byte)) :
  writes (map (fun pw => WriteFile pw.1 pw.2) ws) = ws.
Proof.
  induction ws as [|[path data] ws IH]; [done|].
  change (writes (map (fun pw => WriteFile pw.1 pw.2) ((path, data) :: ws)))
    with ((path, data) :: writes (map (fun pw => WriteFile pw.1 pw.2) ws)).
  by rewrite IH.
Qed.

(** A job whose counts agree and whose [open] calls all succeed runs to the
    end and makes exactly the expected writes. *)
Lemma split_pdf_run (pdf_path output_folder : pystr) (names : list pystr)
    (raw : list byte) (pages : list Page) (w : world) :
  files w !! pdf_path = Some raw →
  pdf_pages raw = inr pages →
  length names = length pages →
  (∀ k name, names !! k = Some name →
             open_wb_error (output_path output_folder k name) = None) →
  split_pdf pdf_path output_folder names w
  = (inr tt,
     World (apply_writes (files w) (page_writes output_folder 0 names pages))
       (length pages) (length pages)
       (trace w ++ map (fun pw => WriteFile pw.1 pw.2)
                     (page_writes output_folder 0 names pages))).
Proof.
  intros Hw Hpages Hlen Hopen.
  rewrite (split_pdf_unfold _ _ _ raw pages) by done.
  rewrite (proj2 (Nat.eqb_eq _ _) Hlen).
  rewrite split_loop_run by done. rewrite drop_0. simpl.
  f_equal. f_equal. destruct names; simpl in *; lia.
Qed.

(** After the expected writes, a path holds the page of the last index
    that sanitises to its name. *)
Lemma page_writes_last_wins (output_folder : pystr) (names : list pystr)
    (pages : list Page) (fs : gmap pystr (list byte)) (i : nat)
    (name : pystr) (page : Page) :
  length names = length pages →
  names !! i = Some name →
  pages !! i = Some page →
  (∀ j name', (i < j)%nat → names !! j = Some name' →
              safe_name j name' ≠ safe_name i name) →
  apply_writes fs (page_writes output_folder 0 names pages)
    !! output_path output_folder i name
  = Some (pdf_write [page]).
Proof.
  intros Hlen Hn Hp Hlast.
  pose proof (page_writes_lookup output_folder names 0 pages i name page
                Hn Hp) as Hi. simpl in Hi.
  rewrite <-(take_drop_middle _ _ _ Hi).
  apply apply_writes_lookup_last.
  intros Hin. apply list_elem_of_fmap in Hin as [[path data] [Hpath Hin]].
  simpl in Hpath. apply list_elem_of_lookup in Hin as [k Hk].
  rewrite lookup_drop in Hk.
  assert (S i + k < length pages)%nat as Hj.
  { rewrite <-(page_writes_length output_folder names 0 pages Hlen).
    by eapply lookup_lt_Some. }
  destruct (lookup_lt_is_Some_2 names (S i + k)) as [name' Hn']; [lia|].
  destruct (lookup_lt_is_Some_2 pages (S i + k)) as [page' Hp']; [lia|].
  rewrite (page_writes_lookup output_folder names 0 pages _ name' page'
             Hn' Hp') in Hk.
  injection Hk as <- _. simpl in Hpath.
  apply output_path_inj in Hpath.
  apply (Hlast (S i + k)%nat name'); [lia|done|done].
Qed.



Lemma two_files_listed (a b : pystr) :
  (∅ ∪ list_to_set [a; b; b] : gset pystr) = {[a; b]}.
Proof.
  clear. simpl. rewrite (left_id_L ∅ (∪)), (right_id_L ∅ (∪)).
  by rewrite (idemp_L (∪) {[b]}).
Qed.

Lemma two_files_size (a b : pystr) :
  a ≠ b → size ({[a; b]} : gset pystr) = 2%nat.
Proof.
  clear. intros Hne.
  rewrite size_union by by apply disjoint_singleton_l, not_elem_of_singleton.
  by rewrite !size_singleton.
Qed.

(** The three names of the collision scenario. *)
Lemma invoice_paths (output_folder : pystr) :
  output_path output_folder 0 (lit "Invoice A")
  = os_path_join output_folder (lit "Invoice A.pdf")
  ∧ output_path output_folder 1 (lit "Invoice B")
    = os_path_join output_folder (lit "Invoice B.pdf")
  ∧ output_path output_folder 2 (lit "Invoice B")
    = os_path_join output_folder (lit "Invoice B.pdf")
  ∧ os_path_join output_folder (lit "Invoice A.pdf")
    ≠ os_path_join output_folder (lit "Invoice B.pdf").
Proof.
  repeat split; try reflexivity.
  rewrite !os_path_join_prefix by discriminate.
  intros H. apply app_inv_head in H. discriminate H.
Qed.

(** C7: when the names at two indices [i < j] of a job sanitise to the same
    base name and no later index does, both are written to the same path and
    after the job that path holds page [j] alone: the later write replaced the
    earlier one, without any error.  In particular, for every three-page source
    and the names [Invoice A], [Invoice B], [Invoice B], a previously empty
    output folder ends with exactly the two files [Invoice A.pdf] (page 1)
    and [Invoice B.pdf], which holds page 3; no file holds page 2. *)
Theorem split_pdf_collision_overwrites (pdf_path output_folder : pystr)
    (names : list pystr) (raw : list byte) (pages : list Page) (w : world)
    (i j : nat) (name_i name_j : pystr) (page_j : Page) :
  files w !! pdf_path = Some raw →
  pdf_pages raw = inr pages →
  length names = length pages →
  (∀ k name, names !! k = Some name →
             open_wb_error (output_path output_folder k name) = None) →
  (∀ k name, names !! k = Some name →
             output_path output_folder k name ≠ pdf_path) →
  (i < j)%nat →
  names !! i = Some name_i →
  names !! j = Some name_j →
  pages !! j = Some page_j →
  safe_name i name_i = safe_name j name_j →
  (∀ k name, (j < k)%nat → names !! k = Some name →
             safe_name k name ≠ safe_name j name_j) →
  (∃ w',
      split_pdf pdf_path output_folder names w = (inr tt, w')
      ∧ output_path output_folder i name_i
        = os_path_join output_folder (safe_name j name_j ++ lit ".pdf")
      ∧ output_path output_folder j name_j
        = output_path output_folder i name_i
      ∧ files w' !! output_path output_folder i name_i
        = Some (pdf_write [page_j]))
  ∧ (∀ (src out : pystr) (raw3 : list byte) (p1 p2 p3 : Page) (w3 : world),
        files w3 !! src = Some raw3 →
        pdf_pages raw3 = inr [p1; p2; p3] →
        open_wb_error (os_path_join out (lit "Invoice A.pdf")) = None →
        open_wb_error (os_path_join out (lit "Invoice B.pdf")) = None →
        listdir out (files w3) = ∅ →
        ∃ w3',
          split_pdf src out
            [lit "Invoice A"; lit "Invoice B"; lit "Invoice B"] w3
          = (inr tt, w3')
          ∧ listdir out (files w3')
            = {[ os_path_join out (lit "Invoice A.pdf");
                 os_path_join out (lit "Invoice B.pdf") ]}
          ∧ size (listdir out (files w3')) = 2%nat
          ∧ files w3' !! os_path_join out (lit "Invoice A.pdf")
            = Some (pdf_write [p1])
          ∧ files w3' !! os_path_join out (lit "Invoice B.pdf")
            = Some (pdf_write [p3])).
Proof.
  intros Hw Hpages Hlen Hopen Hsrc Hij Hi Hj Hpj Hsame Hlast. split.
  - eexists. split; [by apply (split_pdf_run _ _ _ raw pages)|].
    cbn [files].
    assert (output_path output_folder i name_i
            = output_path output_folder j name_j) as Heq
      by by apply output_path_inj.
    split; [by rewrite Heq|]. split; [done|].
    rewrite Heq. by apply page_writes_last_wins.
  - intros src out raw3 p1 p2 p3 w3 Hw3 Hp3 HoA HoB Hempty.
    destruct (invoice_paths out) as [HA [HB1 [HB2 Hne]]].
    eexists. split.
    { apply (split_pdf_run _ _ _ raw3 [p1; p2; p3]); try done.
      intros [|[|[|k]]] name Hk; try done; injection Hk as <-;
        by rewrite ?HA, ?HB1, ?HB2. }
    cbn [files page_writes]. rewrite HA, HB1, HB2.
    assert (listdir out
              (apply_writes (files w3)
                 [(os_path_join out (lit "Invoice A.pdf"), pdf_write [p1]);
                  (os_path_join out (lit "Invoice B.pdf"), pdf_write [p2]);
                  (os_path_join out (lit "Invoice B.pdf"), pdf_write [p3])])
            = {[ os_path_join out (lit "Invoice A.pdf");
                 os_path_join out (lit "Invoice B.pdf") ]}) as Hdir.
    { rewrite listdir_apply_writes.
      - rewrite Hempty. apply two_files_listed.
      - simpl. rewrite <-HA, <-HB1.
        repeat constructor; apply output_path_in_folder. }
    split; [done|]. split.
    { rewrite Hdir. by apply two_files_size. }
    unfold apply_writes. simpl. split.
    + by rewrite !lookup_insert_ne, lookup_insert_eq by done.
    + by rewrite lookup_insert_eq.
Qed.

(** C9: a row whose first cell is missing gets the name [nan]; the
    sanitiser keeps it as it is, so the file is [nan.pdf] in the output
    folder and not the [page_<i+1>] fallback; every other row with a missing
    first cell is written to that same path. *)
Theorem nan_cell_name (df : DataFrame) (output_folder : pystr) (i : nat)
    (row : list cell) :
  rows df !! i = Some row →
  default NaN (head row) = NaN →
  first_column_names df !! i = Some (lit "nan")
  ∧ safe_name i (lit "nan") = lit "nan"
  ∧ safe_name i (lit "nan") ≠ page_fallback i
  ∧ output_path output_folder i (lit "nan")
    = os_path_join output_folder (lit "nan.pdf")
  ∧ (∀ j row', rows df !! j = Some row' →
               default NaN (head row') = NaN →
               ∃ name, first_column_names df !! j = Some name
                       ∧ output_path output_folder j name
                         = output_path output_folder i (lit "nan")).
Proof.
  assert (∀ k r, rows df !! k = Some r → default NaN (head r) = NaN →
                 first_column_names df !! k = Some (lit "nan")) as Hname.
  { intros k r Hk Hr. unfold first_column_names, iloc_first_column.
    rewrite !list_lookup_fmap, Hk. simpl. by rewrite Hr. }
  intros Hi Hrow.
  split; [by apply (Hname i row)|].
  split; [reflexivity|].
  split; [discriminate|].
  split; [reflexivity|].
  intros j row' Hj Hrow'. exists (lit "nan").
  split; [by apply (Hname j row')|reflexivity].
Qed.

(** ** Further properties of the sanitizer *)

Lemma lstrip_with_spaces (sp : char → bool) (l s : pystr) :
  forallb sp l = true → lstrip_with sp (l ++ s) = lstrip_with sp s.
Proof.
  induction l as [|c l IH]; simpl; [done|].
  intros [Hc Hl]%andb_true_iff. rewrite Hc. auto.
Qed.

Lemma lstrip_with_app (sp : char → bool) (s t : pystr) :
  lstrip_with sp (s ++ t)
  = match lstrip_with sp s with
    | [] => lstrip_with sp t
    | r => r ++ t
    end.
Proof.
  induction s as [|c s IH]; simpl; [done|].
  destruct (sp c); [exact IH|done].
Qed.

Lemma rstrip_with_spaces (sp : char → bool) (s t : pystr) :
  forallb sp t = true → rstrip_with sp (s ++ t) = rstrip_with sp s.
Proof.
  intros Ht. unfold rstrip_with. rewrite reverse_app.
  by rewrite lstrip_with_spaces by by rewrite forallb_reverse.
Qed.

Lemma strip_padding (leading name trailing : pystr) :
  forallb isspace leading = true →
  forallb isspace trailing = true →
  strip (leading ++ name ++ trailing) = strip name.
Proof.
  intros Hl Ht. unfold strip.
  rewrite lstrip_with_spaces by done. rewrite lstrip_with_app.
  destruct (lstrip_with isspace name) as [|c r] eqn:Hn.
  - replace (lstrip_with isspace trailing) with (@nil N); [done|].
    symmetry. rewrite <-(app_nil_r trailing).
    by rewrite lstrip_with_spaces.
  - by apply rstrip_with_spaces.
Qed.

(** Names that differ only in the whitespace around them are given the
    same file name. *)
Theorem safe_name_ignores_padding (i : nat)
    (leading name trailing : pystr) :
  forallb isspace leading = true →
  forallb isspace trailing = true →
  safe_name i (leading ++ name ++ trailing) = safe_name i name.
Proof.
  intros Hl Ht. unfold safe_name, filtered.
  by rewrite strip_padding.
Qed.

Lemma filter_all {A} (f : A → bool) (l : list A) :
  forallb f l = true → List.filter f l = l.
Proof.
  induction l as [|x l IH]; simpl; [done|].
  intros [Hx Hl]%andb_true_iff. rewrite Hx. by rewrite IH.
Qed.

Lemma lstrip_with_id (sp : char → bool) (s : pystr) :
  from_option sp false (head s) = false → lstrip_with sp s = s.
Proof. destruct s as [|c s]; simpl; [done|]. by intros ->. Qed.

Lemma strip_id (name : pystr) :
  from_option isspace false (head name) = false →
  from_option isspace false (last name) = false →
  strip name = name.
Proof.
  intros Hh Hl. unfold strip. rewrite lstrip_with_id by done.
  unfold rstrip_with. rewrite lstrip_with_id.
  - apply reverse_involutive.
  - by rewrite head_reverse.
Qed.

(** A non-empty name made of permitted characters only, with no whitespace at
    either end, is used as the file name unchanged. *)
Theorem safe_name_clean (i : nat) (name : pystr) :
  name ≠ [] →
  forallb keep_char name = true →
  from_option isspace false (head name) = false →
  from_option isspace false (last name) = false →
  safe_name i name = name.
Proof.
  intros Hne Hkeep Hh Hl. unfold safe_name, filtered.
  rewrite strip_id by done. rewrite filter_all by done.
  by destruct name.
Qed.

Lemma filter_sublist {A} (f : A → bool) (l : list A) :
  List.filter f l `sublist_of` l.
Proof.
  induction l as [|x l IH]; simpl; [done|].
  destruct (f x); by constructor.
Qed.

Lemma filtered_sublist (name : pystr) : filtered name `sublist_of` name.
Proof.
  unfold filtered.
  destruct (strip_split name) as [leading [trailing [Heq _]]].
  rewrite Heq at 2.
  apply sublist_inserts_l, sublist_inserts_r, filter_sublist.
Qed.

(** Unless it is the [page_] fallback, the file name is made of characters
    of the name, in their order, and is no longer than the name. *)
Theorem safe_name_sublist (i : nat) (name : pystr) :
  filtered name ≠ [] →
  safe_name i name `sublist_of` name
  ∧ (length (safe_name i name) ≤ length name)%nat.
Proof.
  intros Hne. rewrite safe_name_cases.
  rewrite bool_decide_eq_false_2 by done.
  split; [apply filtered_sublist|apply sublist_length, filtered_sublist].
Qed.

Lemma lit_inj (s1 s2 : string) : lit s1 = lit s2 → s1 = s2.
Proof.
  revert s2. induction s1 as [|a1 s1 IH]; intros [|a2 s2] H; try done.
  rewrite !lit_cons in H. injection H as Ha Hs.
  f_equal; [|by apply IH].
  by rewrite <-(ascii_N_embedding a1), <-(ascii_N_embedding a2), Ha.
Qed.

Lemma page_fallback_inj (i j : nat) :
  page_fallback i = page_fallback j → i = j.
Proof.
  unfold page_fallback, str_of_nat. intros H.
  apply app_inv_head, lit_inj in H.
  apply (inj pretty) in H. lia.
Qed.

(** Two names that both fall back to [page_<position>] are written to
    different files when their positions differ. *)
Theorem fallback_paths_differ (output_folder : pystr) (i j : nat)
    (name name' : pystr) :
  filtered name = [] →
  filtered name' = [] →
  i ≠ j →
  output_path output_folder i name ≠ output_path output_folder j name'.
Proof.
  intros Hn Hn' Hij Heq. apply output_path_inj in Heq.
  rewrite !safe_name_cases, Hn, Hn' in Heq.
  rewrite !bool_decide_eq_true_2 in Heq by done.
  by apply page_fallback_inj in Heq.
Qed.

Lemma digit_kept (c : char) : is_digit c = true → keep_char c = true.
Proof.
  unfold is_digit, keep_char, isalnum, ascii_isalnum. intros H.
  apply andb_true_iff in H as [H1 H2]. rewrite H1, H2.
  apply N.leb_le in H2.
  by rewrite (proj2 (N.ltb_lt c 128)) by lia.
Qed.

(** Every character of a file name passes the test of the generator
    expression, the fallback included. *)
Lemma safe_name_kept (i : nat) (name : pystr) :
  forallb keep_char (safe_name i name) = true.
Proof.
  rewrite safe_name_cases. case_bool_decide; [|apply filtered_kept].
  unfold page_fallback. rewrite forallb_app. apply andb_true_iff. split.
  - reflexivity.
  - eapply forallb_impl; [apply digit_kept|apply str_of_nat_digits].
Qed.

(** Whatever the name, the output path is an entry directly inside the
    output folder: it is the folder, a separator where the folder does not end
    in one, and a base name that ends in [.pdf] and holds no separator. *)
Theorem output_path_confined (output_folder : pystr) (i : nat)
    (name : pystr) :
  in_folder output_folder (output_path output_folder i name) = true
  ∧ endswith (output_path output_folder i name) (lit ".pdf") = true
  ∧ output_path output_folder i name
    = folder_prefix output_folder ++ (safe_name i name ++ lit ".pdf")
  ∧ (47 ∉ safe_name i name ++ lit ".pdf")
  ∧ (46 ∉ safe_name i name).
Proof.
  split; [apply output_path_in_folder|].
  split.
  { apply endswith_spec. rewrite output_path_prefix.
    exists (folder_prefix output_folder ++ safe_name i name).
    by rewrite <-app_assoc. }
  split; [apply output_path_prefix|].
  split; [apply pdf_name_no_slash|].
  intros Hin. apply list_elem_of_In in Hin.
  by apply (proj1 (forallb_forall _ _) (safe_name_kept i name)) in Hin.
Qed.

(** Two pages of a job go to the same file exactly when their sanitised
    names are equal. *)
Theorem same_file_iff_same_safe_name (output_folder : pystr) (i j : nat)
    (name name' : pystr) :
  output_path output_folder i name = output_path output_folder j name'
  ↔ safe_name i name = safe_name j name'.
Proof. apply output_path_inj. Qed.

(** ** Further properties of the name-file reader *)

Lemma pd_read_csv_world (file_path : pystr) (enc : option pystr)
    (w : world) :
  (pd_read_csv file_path enc w).2 = logged w [ReadCsv file_path enc].
Proof.
  destruct (files w !! file_path) as [raw|] eqn:Hw.
  - by rewrite (pd_read_csv_run _ _ raw).
  - by destruct (pd_read_csv_missing file_path enc w Hw) as [msg ->].
Qed.

(** The loop leaves the world as it was, but for one recorded call for each
    candidate of an initial part of the list. *)
Lemma try_encodings_world (file_path : pystr)
    (encs : list (option pystr)) :
  ∀ w, ∃ tried rest,
    encs = tried ++ rest
    ∧ (try_encodings file_path encs w).2
      = logged w (map (ReadCsv file_path) tried).
Proof.
  induction encs as [|e encs IH]; intros w.
  - exists [], []. split; [done|]. simpl. by rewrite logged_nil.
  - simpl. unfold bind at 1, attempt.
    pose proof (pd_read_csv_world file_path e w) as Hw1.
    destruct (pd_read_csv file_path e w) as [r w1]. simpl in Hw1. subst w1.
    destruct r as [[]|df];
      try (exists [e], encs; split; [done|]; reflexivity).
    destruct (IH (logged w [ReadCsv file_path e]))
      as [tried [rest [-> Hworld]]].
    exists (e :: tried), rest. split; [done|].
    rewrite Hworld, logged_logged. reflexivity.
Qed.

Lemma writes_read_csv (file_path : pystr) (encs : list (option pystr)) :
  writes (map (ReadCsv file_path) encs) = [].
Proof. by induction encs. Qed.

Lemma read_name_file_world (file_path : pystr) (w : world) :
  ∃ evs, (read_name_file file_path w).2 = logged w evs ∧ writes evs = [].
Proof.
  unfold read_name_file. unfold bind at 1. rewrite os_path_exists_run.
  destruct (files w !! file_path) as [raw|] eqn:Hw; cycle 1.
  { rewrite bool_decide_eq_false_2 by by intros [??].
    exists []. by rewrite logged_nil. }
  rewrite bool_decide_eq_true_2 by eauto. cbn [negb].
  assert (∃ evs, (read_name_file_tail file_path w).2 = logged w evs
                 ∧ writes evs = []) as Htail.
  { unfold read_name_file_tail.
    destruct (endswith_any _ _).
    - unfold bind, attempt. rewrite (pd_read_excel_run _ raw) by done.
      exists [ReadExcel file_path].
      by destruct (excel_sheet raw) as [e|[|header body]].
    - exists []. by rewrite logged_nil. }
  destruct (endswith (lower file_path) (lit ".csv")) eqn:Hcsv; [|done].
  unfold bind at 1. rewrite (detect_file_encoding_run _ raw) by done.
  unfold bind at 1.
  destruct (try_encodings_world file_path
              (encodings_to_try (chardet_detect (take (N.to_nat 100000) raw)))
              w) as [tried [rest [_ Hworld]]].
  destruct (try_encodings file_path _ w) as [[e|out] w1]; simpl in Hworld;
    subst w1.
  { exists (map (ReadCsv file_path) tried). split; [done|].
    apply writes_read_csv. }
  unfold read_name_file_tail. rewrite (csv_not_excel _ Hcsv).
  exists (map (ReadCsv file_path) tried).
  split; [by destruct out|apply writes_read_csv].
Qed.

(** [read_name_file] only reads: whatever the path and the outcome, the
    files and the progress bar are afterwards as they were, and no write was
    made. *)
Theorem read_name_file_read_only (file_path : pystr) (w : world) :
  files (read_name_file file_path w).2 = files w
  ∧ progress_maximum (read_name_file file_path w).2 = progress_maximum w
  ∧ progress_value (read_name_file file_path w).2 = progress_value w
  ∧ writes (trace (read_name_file file_path w).2) = writes (trace w).
Proof.
  destruct (read_name_file_world file_path w) as [evs [-> Hevs]].
  repeat split. simpl. by rewrite writes_app, Hevs, app_nil_r.
Qed.

(** A path that does not exist raises [FileNotFoundError("文件不存在")],
    whatever its extension, before anything is read. *)
Theorem read_name_file_missing (file_path : pystr) (w : world) :
  files w !! file_path = None →
  read_name_file file_path w
  = (inl (FileNotFoundError msg_file_missing), w).
Proof.
  intros Hw. unfold read_name_file. unfold bind at 1.
  rewrite os_path_exists_run.
  by rewrite bool_decide_eq_false_2 by (rewrite Hw; by intros [??]).
Qed.

Lemma excel_not_csv (s : pystr) :
  endswith_any s [lit ".xls"; lit ".xlsx"] = true →
  endswith s (lit ".csv") = false.
Proof.
  intros Hx. destruct (endswith s (lit ".csv")) eqn:Hcsv; [|done].
  by rewrite (csv_not_excel _ Hcsv) in Hx.
Qed.

(** On an existing [.xls] or [.xlsx] path the reader calls [read_excel] once
    and [read_csv] never; the frame takes its labels from the first record of
    the sheet; an exception of the spreadsheet reader is raised again as
    [ValueError] whose text is "读取Excel文件失败: " followed by the text of the
    cause. *)
Theorem read_name_file_excel (file_path : pystr) (raw : list byte)
    (w : world) :
  files w !! file_path = Some raw →
  endswith_any (lower file_path) [lit ".xls"; lit ".xlsx"] = true →
  read_name_file file_path w
  = (match excel_sheet raw with
     | inl e => inl (ValueError (msg_excel_failed e))
     | inr [] => inr {| columns := []; rows := [] |}
     | inr (header :: body) =>
         inr {| columns := header; rows := convert header body |}
     end, logged w [ReadExcel file_path]).
Proof.
  intros Hw Hx. unfold read_name_file. unfold bind at 1.
  rewrite os_path_exists_run.
  rewrite bool_decide_eq_true_2 by (rewrite Hw; eauto). cbn [negb].
  rewrite (excel_not_csv _ Hx). unfold read_name_file_tail. rewrite Hx.
  unfold bind, attempt. rewrite (pd_read_excel_run _ raw) by done.
  by destruct (excel_sheet raw) as [e|[|header body]].
Qed.

(** On an existing [.csv] path the reader makes at least one and at most six
    [read_csv] calls, for an initial part of the candidate list, and no other
    call: the spreadsheet reader is never tried on it. *)
Theorem read_name_file_csv_calls (file_path : pystr) (raw : list byte)
    (w : world) :
  files w !! file_path = Some raw →
  endswith (lower file_path) (lit ".csv") = true →
  ∃ tried rest,
    encodings_to_try (chardet_detect (take (N.to_nat 100000) raw))
      = tried ++ rest
    ∧ (read_name_file file_path w).2
      = logged w (map (ReadCsv file_path) tried)
    ∧ (1 ≤ length tried ≤ 6)%nat.
Proof.
  intros Hw Hcsv.
  destruct (first_candidate raw (Some (lit "latin1"))
              (chardet_detect (take (N.to_nat 100000) raw)
                 :: removelast fixed_encodings)
              (parse_csv_latin1 raw))
    as [pre [enc [post [Heq [Hpre Henc]]]]].
  exists (pre ++ [enc]), post. split; [by rewrite <-app_assoc|].
  split.
  - by rewrite (read_name_file_csv_at _ raw _ pre post enc).
  - apply (f_equal length) in Heq. rewrite !length_app in Heq.
    simpl in Heq. rewrite length_app. simpl. lia.
Qed.

(** ** Further properties of the split *)

(** Whatever happens in the loop, it has made an initial part of the
    expected writes and nothing else; when it ends without exception it has
    made all of them. *)
Lemma split_loop_outcome (output_folder : pystr) (pages : list Page)
    (names : list pystr) :
  ∀ i w r w',
    split_loop pages output_folder i names w = (r, w') →
    ∃ k,
      (k ≤ length names)%nat
      ∧ w' = World
               (apply_writes (files w)
                  (take k (page_writes output_folder i names
                             (drop i pages))))
               (progress_maximum w)
               (match k with
                | O => progress_value w
                | S _ => (i + k)%nat
                end)
               (trace w ++ map (fun pw => WriteFile pw.1 pw.2)
                             (take k (page_writes output_folder i names
                                        (drop i pages))))
      ∧ (r = inr tt →
         k = length names
         ∧ length (page_writes output_folder i names (drop i pages))
           = length names).
Proof.
  assert (∀ w : world,
            w = World (apply_writes (files w) []) (progress_maximum w)
                  (progress_value w) (trace w ++ [])) as Hsame.
  { intros []. simpl. by rewrite app_nil_r. }
  induction names as [|name names IH]; intros i w r w' Hrun.
  - injection Hrun as <- <-. exists 0%nat. split; [done|].
    split; [apply Hsame|done].
  - cbn [split_loop] in Hrun. unfold bind at 1, pages_getitem in Hrun.
    destruct (pages !! i) as [page|] eqn:Hpage; cycle 1.
    { injection Hrun as <- <-. exists 0%nat. split; [simpl; lia|].
      split; [apply Hsame|done]. }
    unfold ret at 1 in Hrun. unfold bind at 1, write_file in Hrun.
    destruct (open_wb_error (output_path output_folder i name)) as [msg|].
    { injection Hrun as <- <-. exists 0%nat. split; [simpl; lia|].
      split; [apply Hsame|done]. }
    unfold modify at 1 in Hrun.
    unfold bind at 1, set_progress_value, modify in Hrun.
    apply IH in Hrun as [k [Hk [-> Hdone]]].
    exists (S k). split; [simpl; lia|].
    rewrite (drop_S _ _ _ Hpage). cbn [page_writes take].
    split.
    + cbn [files progress_maximum progress_value trace apply_writes foldl
           fst snd map].
      f_equal.
      * destruct k; lia.
      * by rewrite <-app_assoc.
    + intros Hok. destruct (Hdone Hok) as [-> Hlen]. simpl.
      by rewrite Hlen.
Qed.

Lemma page_writes_take_in_folder (output_folder : pystr)
    (names : list pystr) (i k : nat) (pages : list Page) :
  Forall (fun path => in_folder output_folder path = true)
    (take k (page_writes output_folder i names pages)).*1.
Proof.
  rewrite fmap_take. apply Forall_take, page_writes_in_folder.
Qed.

(** What [split_pdf] leaves behind, whatever its arguments and its outcome:
    the files after it are the files before it with some writes applied, all
    of them to entries of the output folder; these are the writes it
    recorded. *)
Lemma split_pdf_world (pdf_path output_folder : pystr)
    (names : list pystr) (w : world) (r : exception + unit) (w' : world) :
  split_pdf pdf_path output_folder names w = (r, w') →
  ∃ ws,
    files w' = apply_writes (files w) ws
    ∧ writes (trace w') = writes (trace w) ++ ws
    ∧ Forall (fun path => in_folder output_folder path = true) ws.*1.
Proof.
  assert (∃ ws : list (pystr * list byte),
            files w = apply_writes (files w) ws
            ∧ writes (trace w) = writes (trace w) ++ ws
            ∧ Forall (fun path => in_folder output_folder path = true)
                ws.*1) as Hnone.
  { exists []. simpl. by rewrite app_nil_r. }
  unfold split_pdf. unfold bind at 1. rewrite os_path_exists_run.
  destruct (files w !! pdf_path) as [raw|] eqn:Hw; cycle 1.
  { rewrite bool_decide_eq_false_2 by by intros [??].
    by intros [= <- <-]. }
  rewrite bool_decide_eq_true_2 by eauto. cbn [negb].
  unfold bind at 1, read_file. rewrite Hw. unfold bind at 1, lift.
  destruct (pdf_pages raw) as [e|pages]; [by intros [= <- <-]|].
  destruct (length names =? length pages)%nat; [|by intros [= <- <-]].
  cbn [negb]. unfold bind at 1, set_progress_maximum, modify.
  unfold bind at 1, set_progress_value, modify.
  intros Hrun. apply split_loop_outcome in Hrun as [k [_ [-> _]]].
  cbn [files trace].
  exists (take k (page_writes output_folder 0 names (drop 0 pages))).
  split; [done|]. split.
  - by rewrite writes_app, writes_of_writes.
  - apply page_writes_take_in_folder.
Qed.

(** [split_pdf] changes nothing outside the output folder: whatever its
    arguments and its outcome, a path that is not an entry directly inside
    the output folder holds afterwards what it held before, and no file
    disappears. *)
Theorem split_pdf_confined (pdf_path output_folder : pystr)
    (names : list pystr) (w : world) (path : pystr) :
  (in_folder output_folder path = false →
   files (split_pdf pdf_path output_folder names w).2 !! path
   = files w !! path)
  ∧ dom (files w) ⊆ dom (files (split_pdf pdf_path output_folder names w).2).
Proof.
  destruct (split_pdf pdf_path output_folder names w) as [r w'] eqn:Hrun.
  apply split_pdf_world in Hrun as [ws [Hfiles [_ Hin]]].
  cbn [snd]. rewrite Hfiles. split.
  - intros Hout. apply apply_writes_lookup_other. intros Hpath.
    rewrite Forall_forall in Hin. rewrite (Hin _ Hpath) in Hout.
    discriminate Hout.
  - rewrite apply_writes_dom. apply union_subseteq_l.
Qed.




(** A source that does not exist raises
    [FileNotFoundError("PDF文件不存在")], and a source that [PdfReader] rejects
    raises the reader's exception; in both cases before the names are looked
    at and with the world as it was. *)
Theorem split_pdf_bad_source (pdf_path output_folder : pystr)
    (names : list pystr) (w : world) :
  (files w !! pdf_path = None →
   split_pdf pdf_path output_folder names w
   = (inl (FileNotFoundError msg_pdf_missing), w))
  ∧ (∀ raw e, files w !! pdf_path = Some raw → pdf_pages raw = inl e →
              split_pdf pdf_path output_folder names w = (inl e, w)).
Proof.
  split.
  - intros Hw. unfold split_pdf. unfold bind at 1.
    rewrite os_path_exists_run.
    by rewrite bool_decide_eq_false_2 by (rewrite Hw; by intros [??]).
  - intros raw e Hw Hpages. unfold split_pdf. unfold bind at 1.
    rewrite os_path_exists_run.
    rewrite bool_decide_eq_true_2 by (rewrite Hw; eauto). cbn [negb].
    unfold bind at 1, read_file. rewrite Hw. unfold bind at 1, lift.
    by rewrite Hpages.
Qed.

(** ** Properties of [start_split] *)

Lemma start_split_body_unfold (pdf_path output_folder csv_path : pystr)
    (w : world) :
  start_split_body pdf_path output_folder csv_path w
  = match read_name_file csv_path w with
    | (inl e, w1) => (inl e, w1)
    | (inr df, w1) =>
        if df_empty df then (inr (showerror title_error msg_names_empty), w1)
        else
          match split_pdf pdf_path output_folder (first_column_names df) w1
          with
          | (inl e, w2) => (inl e, w2)
          | (inr _, w2) =>
              (inr (showinfo title_done
                      (msg_done (first_column_names df) output_folder)), w2)
          end
    end.
Proof.
  unfold start_split_body. unfold bind at 1.
  destruct (read_name_file csv_path w) as [[e|df] w1]; [done|].
  destruct (df_empty df); [done|]. unfold bind.
  by destruct (split_pdf _ _ _ w1) as [[e|u] w2].
Qed.

(** [start_split] once the three fields are filled in and the source is
    named [.pdf]: the [try] block, with its exception handler. *)
Lemma start_split_checked (pdf_path output_folder csv_path : pystr)
    (w : world) :
  pdf_path ≠ [] → output_folder ≠ [] → csv_path ≠ [] →
  endswith (lower pdf_path) (lit ".pdf") = true →
  start_split pdf_path output_folder csv_path w
  = match start_split_body pdf_path output_folder csv_path w with
    | (inr shown, w') => (inr shown, w')
    | (inl e, w') =>
        (inr (showerror title_error (msg_failed e)),
         World (files w') (progress_maximum w') 0 (trace w'))
    end.
Proof.
  intros Hp Ho Hc Hpdf. unfold start_split. cbn [forallb].
  rewrite !bool_decide_eq_false_2 by done. cbn [negb andb].
  rewrite Hpdf. cbn [negb]. unfold bind at 1, attempt.
  by destruct (start_split_body _ _ _ w) as [[e|shown] w'].
Qed.

(** [start_split] never raises: whatever the fields hold and whatever goes
    wrong, it ends by showing a dialog. *)
Theorem start_split_never_raises (pdf_path output_folder csv_path : pystr)
    (w : world) :
  ∃ shown, (start_split pdf_path output_folder csv_path w).1 = inr shown.
Proof.
  unfold start_split.
  destruct (negb (forallb _ _)); [by eexists|].
  destruct (negb (endswith _ _)); [by eexists|].
  unfold bind at 1, attempt.
  destruct (start_split_body _ _ _ w) as [[e|shown] w']; by eexists.
Qed.

(** With an empty field [start_split] shows "请填写所有必填字段！" and does
    nothing else: no file is looked at, the world is as it was. *)
Theorem start_split_empty_field (pdf_path output_folder csv_path : pystr)
    (w : world) :
  pdf_path = [] ∨ output_folder = [] ∨ csv_path = [] →
  start_split pdf_path output_folder csv_path w
  = (inr (showerror title_error msg_fill_all), w).
Proof.
  intros H. unfold start_split. cbn [forallb].
  destruct H as [-> | [-> | ->]].
  - done.
  - by destruct (bool_decide (pdf_path = [])).
  - by destruct (bool_decide (pdf_path = [])),
                (bool_decide (output_folder = [])).
Qed.

(** With all fields filled in and a source whose lower-cased path does not
    end in [.pdf], [start_split] shows "请选择有效的PDF文件（.pdf格式）" and does
    nothing else, whether or not the files exist. *)
Theorem start_split_not_pdf (pdf_path output_folder csv_path : pystr)
    (w : world) :
  pdf_path ≠ [] → output_folder ≠ [] → csv_path ≠ [] →
  endswith (lower pdf_path) (lit ".pdf") = false →
  start_split pdf_path output_folder csv_path w
  = (inr (showerror title_error msg_need_pdf), w).
Proof.
  intros Hp Ho Hc Hpdf. unfold start_split. cbn [forallb].
  rewrite !bool_decide_eq_false_2 by done. cbn [negb andb].
  by rewrite Hpdf.
Qed.

(** The names are read before the source is looked at: when the name file
    cannot be read, or gives an empty table, [start_split] shows that error
    (the exception text after "处理失败:", or "名称文件为空或格式不正确"),
    the files are as they were and nothing was written, whether or not the
    source exists. *)
Theorem start_split_names_first (pdf_path output_folder csv_path : pystr)
    (w w1 : world) (r : exception + DataFrame) :
  pdf_path ≠ [] → output_folder ≠ [] → csv_path ≠ [] →
  endswith (lower pdf_path) (lit ".pdf") = true →
  read_name_file csv_path w = (r, w1) →
  match r with
  | inl _ => True
  | inr df => df_empty df = true
  end →
  start_split pdf_path output_folder csv_path w
  = match r with
    | inl e =>
        (inr (showerror title_error (msg_failed e)),
         World (files w) (progress_maximum w) 0 (trace w1))
    | inr _ => (inr (showerror title_error msg_names_empty), w1)
    end
  ∧ files w1 = files w
  ∧ writes (trace w1) = writes (trace w).
Proof.
  intros Hp Ho Hc Hpdf Hread Hr.
  destruct (read_name_file_read_only csv_path w) as [Hf [Hm [_ Ht]]].
  rewrite Hread in Hf, Hm, Ht. simpl in Hf, Hm, Ht.
  split; [|done].
  rewrite start_split_checked, start_split_body_unfold, Hread by done.
  destruct r as [e|df]; [by rewrite Hf, Hm|by rewrite Hr].
Qed.




(** A count mismatch found from the dialog: the error dialog carries the
    mismatch message with both counts, no file has been written, and the
    progress bar is back at 0. *)
Theorem start_split_count_mismatch
    (pdf_path output_folder csv_path : pystr) (w w1 : world)
    (df : DataFrame) (raw : list byte) (pages : list Page) :
  pdf_path ≠ [] → output_folder ≠ [] → csv_path ≠ [] →
  endswith (lower pdf_path) (lit ".pdf") = true →
  read_name_file csv_path w = (inr df, w1) →
  df_empty df = false →
  files w !! pdf_path = Some raw →
  pdf_pages raw = inr pages →
  length (first_column_names df) ≠ length pages →
  start_split pdf_path output_folder csv_path w
  = (inr (showerror title_error
            (msg_failed
               (ValueError
                  (msg_count_mismatch (length (first_column_names df))
                     (length pages))))),
     World (files w) (progress_maximum w) 0 (trace w1))
  ∧ writes (trace w1) = writes (trace w).
Proof.
  intros Hp Ho Hc Hpdf Hread Hempty Hraw Hpages Hlen.
  destruct (read_name_file_read_only csv_path w) as [Hf [Hm [_ Ht]]].
  rewrite Hread in Hf, Hm, Ht. simpl in Hf, Hm, Ht.
  split; [|done].
  rewrite start_split_checked, start_split_body_unfold, Hread, Hempty
    by done.
  rewrite (split_pdf_unfold _ _ _ raw pages) by (by rewrite ?Hf).
  rewrite (proj2 (Nat.eqb_neq _ _) Hlen). by rewrite Hf, Hm.
Qed.


End PDFSplitterApp.

(** * Concrete runs *)

(** ** The sanitizer *)


Lemma sample_space_not_alnum (c : N) :
  128 ≤ c → sample_isspace c = true → sample_isalnum c = false.
Proof.
  unfold sample_isspace, sample_isalnum. intros _.
  rewrite orb_true_iff, !N.eqb_eq, andb_false_iff, !N.leb_gt. lia.
Qed.

(** The two CJK letters U+53D1 U+7968 between ideographic spaces. *)
Lemma safe_name_keeps_alnum_witness :
  isalnum sample_isalnum 21457 = true
  ∧ 21457 ∈ safe_name sample_isalnum sample_isspace 0 [12288; 21457; 31080; 12288].
Proof.
  split; [reflexivity|].
  refine (proj1 (proj2 (safe_name_keeps_alnum sample_isalnum sample_isspace
            sample_space_not_alnum 0 [12288; 21457; 31080; 12288] 21457
            _ eq_refl))).
  apply list_elem_of_further, list_elem_of_here.
Defined.

(** ** The split *)



(** Two names for three pages. *)
Lemma split_pdf_count_mismatch_witness :
  split_pdf sample_isalnum sample_isspace byte sample_pdf_pages
    sample_pdf_write sample_open_wb_error (lit "in/src.pdf") (lit "out")
    [lit "a"; lit "b"] job_world
  = (inl (ValueError (msg_count_mismatch 2 3)), job_world).
Proof.
  apply (proj2 (split_pdf_count_mismatch sample_isalnum sample_isspace byte
                  sample_pdf_pages sample_pdf_write sample_open_wb_error
                  (lit "in/src.pdf") (lit "out") [lit "a"; lit "b"]
                  [x01; x02; x03] [x01; x02; x03] job_world
                  ltac:(vm_compute; reflexivity) eq_refl)).
  simpl. lia.
Defined.

(** The scenario of the specification, at indices 1 and 2. *)
Lemma split_pdf_collision_overwrites_witness :
  ∃ w',
    split_pdf sample_isalnum sample_isspace byte sample_pdf_pages
      sample_pdf_write sample_open_wb_error (lit "in/src.pdf") (lit "out")
      invoice_names job_world = (inr tt, w')
    ∧ files w' !! lit "out/Invoice B.pdf" = Some [x03]
    ∧ size (listdir (lit "out") (files w')) = 2%nat.
Proof.
  destruct (split_pdf_collision_overwrites sample_isalnum sample_isspace
              byte sample_pdf_pages sample_pdf_write sample_open_wb_error
              (lit "in/src.pdf") (lit "out") invoice_names
              [x01; x02; x03] [x01; x02; x03] job_world 1 2
              (lit "Invoice B") (lit "Invoice B") x03)
    as [[w' [Hrun [_ [_ Hfile]]]] Hscenario].
  - vm_compute. reflexivity.
  - reflexivity.
  - reflexivity.
  - intros [|[|[|k]]] name Hk; try discriminate Hk;
      injection Hk as <-; reflexivity.
  - intros [|[|[|k]]] name Hk; try discriminate Hk;
      injection Hk as <-; vm_compute; discriminate.
  - lia.
  - reflexivity.
  - reflexivity.
  - reflexivity.
  - reflexivity.
  - intros [|[|[|k]]] name Hk Hname; try lia. discriminate Hname.
  - destruct (Hscenario (lit "in/src.pdf") (lit "out") [x01; x02; x03]
                x01 x02 x03 job_world)
      as [w3 [Hrun3 [_ [Hsize _]]]];
      try reflexivity; try (vm_compute; reflexivity).
    exists w'. split; [exact Hrun|]. split; [exact Hfile|].
    pose proof (eq_trans (eq_sym Hrun) Hrun3) as Heq.
    injection Heq as ->. exact Hsize.
Defined.

(** ** The name-file reader *)




(** The byte 0xFF is no ASCII, so the detector says [None]; the first four
    candidates fail to decode, [utf-16] fails otherwise, and [latin1] is
    never tried. *)
Example read_name_file_csv_utf16_breaks :
  read_name_file sample_lower sample_chardet sample_codec sample_tokenize
    sample_convert sample_excel_sheet (lit "m.csv") names_world
  = (inl (ValueError msg_cannot_read),
     logged names_world
       (map (ReadCsv (lit "m.csv"))
          [None; Some (lit "gb18030"); Some (lit "gbk"); Some (lit "utf-8");
           Some (lit "utf-16")])).
Proof.
  apply (read_name_file_csv_at sample_lower sample_chardet
           sample_codec sample_tokenize sample_convert sample_excel_sheet
           (lit "m.csv") [x61; xff] names_world
           [None; Some (lit "gb18030"); Some (lit "gbk"); Some (lit "utf-8")]
           [Some (lit "latin1")] (Some (lit "utf-16")));
    vm_compute; reflexivity.
Qed.

Lemma read_name_file_csv_fallback_witness :
  ∃ pre enc post,
    encodings_to_try (sample_chardet (take (N.to_nat 100000) [x61; xff]))
      = pre ++ enc :: post
    ∧ forallb (fun e => decoding_failed
                          (parse_csv sample_codec sample_tokenize
                             sample_convert e [x61; xff])) pre = true
    ∧ decoding_failed (parse_csv sample_codec sample_tokenize sample_convert
                         enc [x61; xff]) = false
    ∧ read_name_file sample_lower sample_chardet sample_codec sample_tokenize
        sample_convert sample_excel_sheet (lit "m.csv") names_world
      = (match parse_csv sample_codec sample_tokenize sample_convert enc
                 [x61; xff] with
         | inr df => inr df
         | inl _ => inl (ValueError msg_cannot_read)
         end,
         logged names_world (map (ReadCsv (lit "m.csv")) (pre ++ [enc]))).
Proof.
  apply (read_name_file_csv_fallback sample_lower sample_chardet
           sample_codec sample_tokenize sample_convert sample_excel_sheet
           (lit "m.csv") [x61; xff] names_world).
  - vm_compute. reflexivity.
  - reflexivity.
Defined.

Lemma encoding_fallback_total_witness :
  (try_encodings sample_codec sample_tokenize sample_convert (lit "n.csv")
     (encodings_to_try (Some (lit "ascii"))) names_world).1
  ≠ inr Exhausted
  ∧ detect_file_encoding sample_chardet (lit "n.csv") names_world
    = (inr (Some (lit "ascii")), names_world).
Proof.
  destruct (encoding_fallback_total sample_chardet sample_codec
              sample_tokenize sample_convert (lit "n.csv")
              [x61; x0a; x62; x0a] names_world (Some (lit "ascii"))
              ltac:(vm_compute; reflexivity))
    as [_ [_ [_ [_ [Hloop [Hdetect _]]]]]].
  split; [apply Hloop|exact Hdetect].
Defined.



(** ** Missing cells *)

Lemma nan_cell_name_witness :
  first_column_names gappy_frame !! 0%nat = Some (lit "nan")
  ∧ output_path sample_isalnum sample_isspace (lit "out") 2 (lit "nan")
    = lit "out/nan.pdf"
  ∧ first_column_names gappy_frame = [lit "nan"; lit "y"; lit "nan"].
Proof.
  destruct (nan_cell_name sample_isalnum sample_isspace gappy_frame
              (lit "out") 0 [NaN; Value (lit "x")] eq_refl eq_refl)
    as [Hname _].
  split; [exact Hname|]. split; reflexivity.
Defined.

(** A whole run of [start_split]: the record [,x] below the header [h,k]
    has an empty first field, and the single page is written to
    [out/nan.pdf]. *)
Example start_split_nan :
  let run :=
    start_split sample_isalnum sample_isspace sample_lower sample_chardet
      sample_codec sample_tokenize sample_convert sample_excel_sheet byte
      sample_pdf_pages sample_pdf_write sample_open_wb_error
      (lit "doc.pdf") (lit "out") (lit "names.csv") nan_world in
  run.1 = inr (showinfo title_done (msg_done [lit "nan"] (lit "out")))
  ∧ files run.2 !! lit "out/nan.pdf" = Some [x07]
  ∧ writes (trace run.2) = [(lit "out/nan.pdf", [x07])].
Proof. vm_compute. repeat split; reflexivity. Qed.

(** ** Further runs *)

(** Evaluate a closed goal about a concrete run. *)
Ltac by_run := vm_compute; first [reflexivity | discriminate | exact I].

(** *** The sanitizer *)

(** A name between a tab, a no-break space and an ideographic space. *)
Lemma safe_name_ignores_padding_witness :
  safe_name sample_isalnum sample_isspace 0
    ([9; 160] ++ lit "Invoice A" ++ [12288])
  = lit "Invoice A".
Proof.
  rewrite (safe_name_ignores_padding sample_isalnum sample_isspace 0
             [9; 160] (lit "Invoice A") [12288] eq_refl eq_refl).
  reflexivity.
Defined.

(** A name with an inner space, a hyphen and a full-width parenthesis. *)
Lemma safe_name_clean_witness :
  safe_name sample_isalnum sample_isspace 4 (lit "a b-" ++ [65288; 21457])
  = lit "a b-" ++ [65288; 21457].
Proof.
  apply (safe_name_clean sample_isalnum sample_isspace 4
           (lit "a b-" ++ [65288; 21457])); by_run.
Defined.

Lemma safe_name_sublist_witness :
  safe_name sample_isalnum sample_isspace 0 (lit " a/b? ")
    `sublist_of` lit " a/b? "
  ∧ safe_name sample_isalnum sample_isspace 0 (lit " a/b? ") = lit "ab".
Proof.
  split; [|reflexivity].
  apply (safe_name_sublist sample_isalnum sample_isspace 0 (lit " a/b? ")).
  by_run.
Defined.

Lemma fallback_paths_differ_witness :
  output_path sample_isalnum sample_isspace (lit "out") 0 (lit "??")
  ≠ output_path sample_isalnum sample_isspace (lit "out") 1 (lit "//").
Proof.
  apply (fallback_paths_differ sample_isalnum sample_isspace (lit "out")
           0 1 (lit "??") (lit "//") eq_refl eq_refl).
  lia.
Defined.

(** *** The name-file reader *)

Lemma read_name_file_missing_witness :
  read_name_file sample_lower sample_chardet sample_codec sample_tokenize
    sample_convert sample_excel_sheet (lit "gone.xlsx") names_world
  = (inl (FileNotFoundError msg_file_missing), names_world).
Proof.
  apply (read_name_file_missing sample_lower sample_chardet sample_codec
           sample_tokenize sample_convert sample_excel_sheet
           (lit "gone.xlsx") names_world).
  by_run.
Defined.

Lemma read_name_file_excel_witness :
  read_name_file sample_lower sample_chardet sample_codec sample_tokenize
    sample_convert sample_excel_sheet (lit "book.xlsx") excel_world
  = (inl (ValueError
            (msg_excel_failed (OtherError (lit "File is not a zip file")))),
     logged excel_world [ReadExcel (lit "book.xlsx")]).
Proof.
  apply (read_name_file_excel sample_lower sample_chardet sample_codec
           sample_tokenize sample_convert sample_excel_sheet
           (lit "book.xlsx") [x50; x4b] excel_world); by_run.
Defined.

Lemma read_name_file_csv_calls_witness :
  ∃ tried rest,
    encodings_to_try (sample_chardet (take (N.to_nat 100000) [x61; xff]))
    = tried ++ rest
    ∧ (read_name_file sample_lower sample_chardet sample_codec
         sample_tokenize sample_convert sample_excel_sheet (lit "m.csv")
         names_world).2
      = logged names_world (map (ReadCsv (lit "m.csv")) tried)
    ∧ (1 ≤ length tried ≤ 6)%nat.
Proof.
  apply (read_name_file_csv_calls sample_lower sample_chardet sample_codec
           sample_tokenize sample_convert sample_excel_sheet (lit "m.csv")
           [x61; xff] names_world); by_run.
Defined.

(** *** The split *)



(** *** [start_split] *)

Lemma start_split_empty_field_witness :
  start_split sample_isalnum sample_isspace sample_lower sample_chardet
    sample_codec sample_tokenize sample_convert sample_excel_sheet byte
    sample_pdf_pages sample_pdf_write sample_open_wb_error
    (lit "doc.pdf") [] (lit "names.csv") nan_world
  = (inr (showerror title_error msg_fill_all), nan_world).
Proof.
  apply (start_split_empty_field sample_isalnum sample_isspace sample_lower
           sample_chardet sample_codec sample_tokenize sample_convert
           sample_excel_sheet byte sample_pdf_pages sample_pdf_write
           sample_open_wb_error (lit "doc.pdf") [] (lit "names.csv")
           nan_world).
  right. left. reflexivity.
Defined.

Lemma start_split_not_pdf_witness :
  start_split sample_isalnum sample_isspace sample_lower sample_chardet
    sample_codec sample_tokenize sample_convert sample_excel_sheet byte
    sample_pdf_pages sample_pdf_write sample_open_wb_error
    (lit "doc.pdf.bak") (lit "out") (lit "names.csv") nan_world
  = (inr (showerror title_error msg_need_pdf), nan_world).
Proof.
  apply (start_split_not_pdf sample_isalnum sample_isspace sample_lower
           sample_chardet sample_codec sample_tokenize sample_convert
           sample_excel_sheet byte sample_pdf_pages sample_pdf_write
           sample_open_wb_error (lit "doc.pdf.bak") (lit "out")
           (lit "names.csv") nan_world); by_run.
Defined.

(** The name file [m.csv] cannot be read and the source does not exist: the
    dialog is about the name file. *)
Lemma start_split_names_first_witness :
  (start_split sample_isalnum sample_isspace sample_lower sample_chardet
     sample_codec sample_tokenize sample_convert sample_excel_sheet byte
     sample_pdf_pages sample_pdf_write sample_open_wb_error
     (lit "gone.pdf") (lit "out") (lit "m.csv") names_world).1
  = inr (showerror title_error (msg_failed (ValueError msg_cannot_read))).
Proof.
  destruct (start_split_names_first sample_isalnum sample_isspace
              sample_lower sample_chardet sample_codec sample_tokenize
              sample_convert sample_excel_sheet byte sample_pdf_pages
              sample_pdf_write sample_open_wb_error
              (lit "gone.pdf") (lit "out") (lit "m.csv") names_world
              (read_name_file sample_lower sample_chardet sample_codec
                 sample_tokenize sample_convert sample_excel_sheet
                 (lit "m.csv") names_world).2
              (inl (ValueError msg_cannot_read))
              ltac:(by_run) ltac:(by_run) ltac:(by_run) ltac:(by_run)
              ltac:(by_run) I) as [Hrun _].
  rewrite Hrun. reflexivity.
Defined.



(** Two names for three pages, from the dialog. *)
Lemma start_split_count_mismatch_witness :
  start_split sample_isalnum sample_isspace sample_lower sample_chardet
    sample_codec sample_tokenize sample_convert sample_excel_sheet byte
    sample_pdf_pages sample_pdf_write sample_open_wb_error
    (lit "doc.pdf") (lit "out") (lit "names.csv") mismatch_world
  = (inr (showerror title_error
            (msg_failed (ValueError (msg_count_mismatch 2 3)))),
     World (files mismatch_world) 0 0
       [ReadCsv (lit "names.csv") (Some (lit "ascii"))]).
Proof.
  apply (proj1 (start_split_count_mismatch sample_isalnum sample_isspace
                  sample_lower sample_chardet sample_codec sample_tokenize
                  sample_convert sample_excel_sheet byte sample_pdf_pages
                  sample_pdf_write sample_open_wb_error
                  (lit "doc.pdf") (lit "out") (lit "names.csv")
                  mismatch_world
                  (logged mismatch_world [ReadCsv (lit "names.csv")
                                            (Some (lit "ascii"))])
                  {| columns := [lit "h"];
                     rows := [[Value (lit "a")]; [Value (lit "b")]] |}
                  [x07; x08; x09] [x07; x08; x09]
                  ltac:(by_run) ltac:(by_run) ltac:(by_run) ltac:(by_run)
                  ltac:(by_run) ltac:(by_run) ltac:(by_run) eq_refl
                  ltac:(by_run))).
Defined.

